(** * XSensMVNCalibrator: the calibration session of the XSens MVN driver

    A shallow embedding of [src/XSensMVN/src/XSensMVNCalibrator.cpp].

    The calibrator runs on the caller's thread and talks to the MVN engine
    through an [XmeControl] handle; the engine answers from a thread of its
    own by invoking three callbacks that raise boolean flags.  The embedding
    threads a [World] through every statement: the calibrator's members, the
    handle, a clock in milliseconds, the calls made on the handle so far, and
    the engine's schedule, which says what the engine's thread does at each
    millisecond.  The caller's statements take no time; the engine's thread
    is observed whenever the caller sleeps, and [sleep_for d] lets the clock
    advance by [d] milliseconds and runs what the engine does meanwhile.
    The schedule is arbitrary, so a theorem that holds for every world holds
    for every engine, whatever it answers to the commands it receives. *)

From Stdlib Require Import ZArith List String Bool Lia QArith.
Import ListNotations.

Local Open Scope string_scope.
Local Open Scope list_scope.
Local Open Scope Z_scope.

(* ------------------------------------------------------------------ *)
(** ** Data model *)

(** The quality grades of the XME SDK, the keys of [CalibrationQualitiesMap]. *)
Inductive XmeCalibrationQuality : Type :=
| XCalQ_Unknown
| XCalQ_Failed
| XCalQ_Poor
| XCalQ_Acceptable
| XCalQ_Good.

(** [xsensmvn::CalibrationQuality]. *)
Inductive CalibrationQuality : Type :=
| UNKNOWN
| FAILED
| POOR
| ACCEPTABLE
| GOOD.

(** Modelled from the spec: the declaration of [enum CalibrationQuality]
    lives in the header [XsensMVNCalibrator.h], which is not among the
    sources.  The enumerators are ordered from worst to best,
    Unknown < Failed < Poor < Acceptable < Good, and [operator<] on the
    enumeration compares these underlying values. *)
Definition underlying (q : CalibrationQuality) : Z :=
  match q with
  | UNKNOWN => 0
  | FAILED => 1
  | POOR => 2
  | ACCEPTABLE => 3
  | GOOD => 4
  end.

(** [a < b] on [CalibrationQuality]. *)
Definition quality_lt (a b : CalibrationQuality) : bool :=
  underlying a <? underlying b.

(** [CalibrationQualitiesMap.at(q)]: the table has an entry for each of the
    five keys, so [at] never throws. *)
Definition CalibrationQualitiesMap (q : XmeCalibrationQuality) : CalibrationQuality :=
  match q with
  | XCalQ_Unknown => UNKNOWN
  | XCalQ_Failed => FAILED
  | XCalQ_Poor => POOR
  | XCalQ_Acceptable => ACCEPTABLE
  | XCalQ_Good => GOOD
  end.

Record XmeCalibrationResult : Type := {
  m_quality : XmeCalibrationQuality;
  m_warnings : list string
}.

(** The members of [XSensMVNCalibrator] (the reference to the handle is kept
    in the [World]). *)
Record XSensMVNCalibrator : Type := {
  m_minimumAccaptableQuality : CalibrationQuality;
  m_achievedCalibrationQuality : CalibrationQuality;
  m_usedCalibrationType : string;
  m_calibrationAborted : bool;
  m_calibrationInProgress : bool;
  m_calibrationProcessed : bool;
  m_operationCompleted : bool
}.

(** What the handle answers to the calibrator's queries.  A [double] is
    modelled by a rational: the code only stores, forwards and truncates
    these values. *)
Record XmeControl : Type := {
  isConnected : bool;
  bodyDimensionLabelList : list string;
  bodyDimensionValueEstimate : string -> Q;
  performedCalibrations : list string;
  calibrationPhaseList : list Z;
  calibrationResult : string -> XmeCalibrationResult
}.

(** Every call the calibrator makes on the handle, queries included. *)
Inductive Call : Type :=
| CStatus
| CBodyDimensionLabelList
| CSetBodyDimension (label : string) (value : Q)
| CBodyDimensionValueEstimate (label : string)
| CIsCalibrationPerformed (calibrationType : string)
| CClearCalibration (calibrationType : string)
| CInitializeCalibration (calibrationType : string)
| CCalibrationPhaseList
| CStartCalibration
| CCalibrationPhaseText (phase : Z)
| CCalibrationPose (frame : Z)
| CStopCalibration
| CCalibrationResult (calibrationType : string)
| CFinalizeCalibration
| CAbortCalibration.

(** The calls that ask the engine to do something, as opposed to the
    read-only queries. *)
Definition is_command (c : Call) : bool :=
  match c with
  | CSetBodyDimension _ _ | CClearCalibration _ | CInitializeCalibration _
  | CStartCalibration | CStopCalibration | CFinalizeCalibration
  | CAbortCalibration => true
  | _ => false
  end.

(** What the engine's thread can do: invoke one of the three callbacks, or
    finish discarding a calibration, after which [isCalibrationPerformed]
    answers false for it. *)
Inductive EngineEvent : Type :=
| OnCalibrationAborted
| OnCalibrationComplete
| OnCalibrationProcessed
| CalibrationCleared (calibrationType : string).

Record World : Type := {
  self : XSensMVNCalibrator;
  m_suitsConnector : XmeControl;
  engine : nat -> list EngineEvent;
  now : nat;
  calls : list Call
}.

(* ------------------------------------------------------------------ *)
(** ** Constructor, callbacks and [cleanup] *)

(** The member initialisers of the constructor. *)
Definition construct (minAcceptableQuality : CalibrationQuality) : XSensMVNCalibrator :=
  {| m_minimumAccaptableQuality := minAcceptableQuality;
     m_achievedCalibrationQuality := UNKNOWN;
     m_usedCalibrationType := EmptyString;
     m_calibrationAborted := false;
     m_calibrationInProgress := false;
     m_calibrationProcessed := false;
     m_operationCompleted := true |}.

Definition onCalibrationAborted (c : XSensMVNCalibrator) : XSensMVNCalibrator :=
  {| m_minimumAccaptableQuality := m_minimumAccaptableQuality c;
     m_achievedCalibrationQuality := m_achievedCalibrationQuality c;
     m_usedCalibrationType := m_usedCalibrationType c;
     m_calibrationAborted := true;
     m_calibrationInProgress := m_calibrationInProgress c;
     m_calibrationProcessed := m_calibrationProcessed c;
     m_operationCompleted := m_operationCompleted c |}.

Definition onCalibrationComplete (c : XSensMVNCalibrator) : XSensMVNCalibrator :=
  {| m_minimumAccaptableQuality := m_minimumAccaptableQuality c;
     m_achievedCalibrationQuality := m_achievedCalibrationQuality c;
     m_usedCalibrationType := m_usedCalibrationType c;
     m_calibrationAborted := m_calibrationAborted c;
     m_calibrationInProgress := m_calibrationInProgress c;
     m_calibrationProcessed := m_calibrationProcessed c;
     m_operationCompleted := true |}.

Definition onCalibrationProcessed (c : XSensMVNCalibrator) : XSensMVNCalibrator :=
  {| m_minimumAccaptableQuality := m_minimumAccaptableQuality c;
     m_achievedCalibrationQuality := m_achievedCalibrationQuality c;
     m_usedCalibrationType := m_usedCalibrationType c;
     m_calibrationAborted := m_calibrationAborted c;
     m_calibrationInProgress := m_calibrationInProgress c;
     m_calibrationProcessed := true;
     m_operationCompleted := m_operationCompleted c |}.

(** The body of [cleanup()]: the chained assignment gives [false] to
    [m_calibrationProcessed], [m_operationCompleted] and
    [m_calibrationInProgress] alike. *)
Definition cleanup_members (c : XSensMVNCalibrator) : XSensMVNCalibrator :=
  {| m_minimumAccaptableQuality := m_minimumAccaptableQuality c;
     m_achievedCalibrationQuality := UNKNOWN;
     m_usedCalibrationType := EmptyString;
     m_calibrationAborted := false;
     m_calibrationInProgress := false;
     m_calibrationProcessed := false;
     m_operationCompleted := false |}.

(** The other assignments to members made by the public functions. *)
Definition set_calibrationInProgress (b : bool) (c : XSensMVNCalibrator) : XSensMVNCalibrator :=
  {| m_minimumAccaptableQuality := m_minimumAccaptableQuality c;
     m_achievedCalibrationQuality := m_achievedCalibrationQuality c;
     m_usedCalibrationType := m_usedCalibrationType c;
     m_calibrationAborted := m_calibrationAborted c;
     m_calibrationInProgress := b;
     m_calibrationProcessed := m_calibrationProcessed c;
     m_operationCompleted := m_operationCompleted c |}.

Definition set_calibrationProcessed (b : bool) (c : XSensMVNCalibrator) : XSensMVNCalibrator :=
  {| m_minimumAccaptableQuality := m_minimumAccaptableQuality c;
     m_achievedCalibrationQuality := m_achievedCalibrationQuality c;
     m_usedCalibrationType := m_usedCalibrationType c;
     m_calibrationAborted := m_calibrationAborted c;
     m_calibrationInProgress := m_calibrationInProgress c;
     m_calibrationProcessed := b;
     m_operationCompleted := m_operationCompleted c |}.

Definition set_operationCompleted (b : bool) (c : XSensMVNCalibrator) : XSensMVNCalibrator :=
  {| m_minimumAccaptableQuality := m_minimumAccaptableQuality c;
     m_achievedCalibrationQuality := m_achievedCalibrationQuality c;
     m_usedCalibrationType := m_usedCalibrationType c;
     m_calibrationAborted := m_calibrationAborted c;
     m_calibrationInProgress := m_calibrationInProgress c;
     m_calibrationProcessed := m_calibrationProcessed c;
     m_operationCompleted := b |}.

Definition set_lastCalibration (type : string) (quality : CalibrationQuality)
    (c : XSensMVNCalibrator) : XSensMVNCalibrator :=
  {| m_minimumAccaptableQuality := m_minimumAccaptableQuality c;
     m_achievedCalibrationQuality := quality;
     m_usedCalibrationType := type;
     m_calibrationAborted := m_calibrationAborted c;
     m_calibrationInProgress := m_calibrationInProgress c;
     m_calibrationProcessed := m_calibrationProcessed c;
     m_operationCompleted := m_operationCompleted c |}.

(** [setMinimumAcceptableCalibrationQuality]. *)
Definition setMinimumAcceptableCalibrationQuality (quality : CalibrationQuality)
    (c : XSensMVNCalibrator) : XSensMVNCalibrator :=
  {| m_minimumAccaptableQuality := quality;
     m_achievedCalibrationQuality := m_achievedCalibrationQuality c;
     m_usedCalibrationType := m_usedCalibrationType c;
     m_calibrationAborted := m_calibrationAborted c;
     m_calibrationInProgress := m_calibrationInProgress c;
     m_calibrationProcessed := m_calibrationProcessed c;
     m_operationCompleted := m_operationCompleted c |}.

(* ------------------------------------------------------------------ *)
(** ** The engine's thread *)

(** One step of the engine's thread, on the calibrator's members... *)
Definition callback (e : EngineEvent) (c : XSensMVNCalibrator) : XSensMVNCalibrator :=
  match e with
  | OnCalibrationAborted => onCalibrationAborted c
  | OnCalibrationComplete => onCalibrationComplete c
  | OnCalibrationProcessed => onCalibrationProcessed c
  | CalibrationCleared _ => c
  end.

(** ... and on the handle. *)
Definition discard (calibrationType : string) (x : XmeControl) : XmeControl :=
  {| isConnected := isConnected x;
     bodyDimensionLabelList := bodyDimensionLabelList x;
     bodyDimensionValueEstimate := bodyDimensionValueEstimate x;
     performedCalibrations :=
       filter (fun t => negb (String.eqb t calibrationType)) (performedCalibrations x);
     calibrationPhaseList := calibrationPhaseList x;
     calibrationResult := calibrationResult x |}.

Definition engine_effect (e : EngineEvent) (x : XmeControl) : XmeControl :=
  match e with
  | CalibrationCleared t => discard t x
  | _ => x
  end.

Definition receive (es : list EngineEvent) (c : XSensMVNCalibrator) : XSensMVNCalibrator :=
  fold_left (fun c e => callback e c) es c.

Definition engine_effects (es : list EngineEvent) (x : XmeControl) : XmeControl :=
  fold_left (fun x e => engine_effect e x) es x.

(** What the engine does during the [d] milliseconds that start at [t]. *)
Definition arrivals (sched : nat -> list EngineEvent) (t d : nat) : list EngineEvent :=
  flat_map sched (seq t d).

(** The world after the caller has slept for [d] milliseconds. *)
Definition asleep (d : nat) (w : World) : World :=
  let es := arrivals (engine w) (now w) d in
  {| self := receive es (self w);
     m_suitsConnector := engine_effects es (m_suitsConnector w);
     engine := engine w;
     now := (now w + d)%nat;
     calls := calls w |}.

(* ------------------------------------------------------------------ *)
(** ** Outcomes and the monad of the caller's thread *)

(** Behaviour the C++ standard leaves undefined. *)
Inductive Fault : Type :=
| IndexOutOfRange
| EndIteratorDereference.

(** The loops of the file. *)
Inductive Loop : Type :=
| BodyDimensionsWait   (* setBodyDimensions, [while (!m_operationCompleted)] *)
| DiscardWait          (* calibrateWithType, wait for the discard *)
| PhaseLoop            (* calibrateWithType, [for] over the phases *)
| FrameLoop            (* calibrateWithType, [while] over the frames of a phase *)
| ProcessingWait       (* calibrateWithType, wait for onCalibrationProcessed *)
| AbortWait            (* calibrateWithType, wait after the self-triggered abort *)
| FinalizeWait.        (* calibrateWithType, wait after finalizeCalibration *)

(** A run of the caller's thread returns, or is still inside a loop when the
    iterations granted to that loop are spent, or runs into undefined
    behaviour. *)
Inductive Outcome (A : Type) : Type :=
| Returned (a : A) (w : World)
| StillLooping (l : Loop) (w : World)
| Undefined (f : Fault) (w : World).

Arguments Returned {A} a w.
Arguments StillLooping {A} l w.
Arguments Undefined {A} f w.

Definition world_of {A} (o : Outcome A) : World :=
  match o with
  | Returned _ w | StillLooping _ w | Undefined _ w => w
  end.

(** The value a run returned, if it returned. *)
Definition result_of {A} (o : Outcome A) : option A :=
  match o with
  | Returned a _ => Some a
  | _ => None
  end.

Definition M (A : Type) : Type := World -> Outcome A.

Definition ret {A} (a : A) : M A := fun w => Returned a w.

Definition bind {A B} (m : M A) (k : A -> M B) : M B :=
  fun w =>
    match m w with
    | Returned a w' => k a w'
    | StillLooping l w' => StillLooping l w'
    | Undefined f w' => Undefined f w'
    end.

Notation "x <- m ;; k" := (bind m (fun x => k))
  (at level 61, m at next level, right associativity).
Notation "m ;; k" := (bind m (fun _ => k))
  (at level 61, right associativity).

Definition undefined {A} (f : Fault) : M A := fun w => Undefined f w.

Definition spent {A} (l : Loop) : M A := fun w => StillLooping l w.

(** The world with the calibrator's members replaced, and with one more
    call on the handle recorded. *)
Definition with_self (c : XSensMVNCalibrator) (w : World) : World :=
  {| self := c;
     m_suitsConnector := m_suitsConnector w;
     engine := engine w;
     now := now w;
     calls := calls w |}.

Definition logged (c : Call) (w : World) : World :=
  {| self := self w;
     m_suitsConnector := m_suitsConnector w;
     engine := engine w;
     now := now w;
     calls := calls w ++ [c] |}.

(** Read a member, assign members. *)
Definition member {A} (get : XSensMVNCalibrator -> A) : M A :=
  fun w => Returned (get (self w)) w.

Definition assign (f : XSensMVNCalibrator -> XSensMVNCalibrator) : M unit :=
  fun w => Returned tt (with_self (f (self w)) w).

(** A call on the handle: it is recorded, and answered from the handle. *)
Definition invoke {A} (c : Call) (answer : XmeControl -> A) : M A :=
  fun w => Returned (answer (m_suitsConnector w)) (logged c w).

Definition command (c : Call) : M unit := invoke c (fun _ => tt).

(** [std::this_thread::sleep_for(std::chrono::milliseconds(d))]. *)
Definition sleep_for (d : nat) : M unit := fun w => Returned tt (asleep d w).

(** [while (cond) body], loop [l], run for at most [fuel] iterations. *)
Fixpoint while (fuel : nat) (l : Loop) (cond : M bool) (body : M unit) : M unit :=
  c <- cond ;;
  if c then
    match fuel with
    | O => spent l
    | S fuel' => body ;; while fuel' l cond body
    end
  else ret tt.

(** A part of a function body: [Some b] when it executed [return b],
    [None] when control falls through to the statement that follows. *)
Definition proceed {A} (m : M (option A)) (k : M (option A)) : M (option A) :=
  r <- m ;;
  match r with
  | Some b => ret (Some b)
  | None => k
  end.

(* ------------------------------------------------------------------ *)
(** ** Containers *)

(** [std::map<std::string, double>], as the sequence its iteration visits:
    keys are unique and in increasing order. *)
Definition StdMap : Type := list (string * Q).

(** [m.find(k)]: [Some v] for an iterator to the element, [None] for
    [m.end()]. *)
Fixpoint map_find (k : string) (m : StdMap) : option Q :=
  match m with
  | [] => None
  | (k', v) :: rest => if String.eqb k k' then Some v else map_find k rest
  end.

(** Where a new key goes in the increasing sequence. *)
Fixpoint insert_sorted (k : string) (v : Q) (m : StdMap) : StdMap :=
  match m with
  | [] => [(k, v)]
  | (k', v') :: rest =>
      if String.ltb k k' then (k, v) :: m
      else (k', v') :: insert_sorted k v rest
  end.

(** [m.insert({k, v})]: a key already present keeps its value. *)
Definition map_insert (k : string) (v : Q) (m : StdMap) : StdMap :=
  match map_find k m with
  | Some _ => m
  | None => insert_sorted k v m
  end.

(** [XsArray::find]: the index of the first element equal to [s], or -1. *)
Fixpoint XsArray_find (l : list string) (s : string) : Z :=
  match l with
  | [] => -1
  | x :: rest =>
      if String.eqb x s then 0
      else let i := XsArray_find rest s in
           if i =? -1 then -1 else i + 1
  end.

(** [l[i]] on an [XsIntArray]: reading at or past [size()] is undefined. *)
Definition XsArray_at (l : list Z) (i : Z) : M Z :=
  match nth_error l (Z.to_nat i) with
  | Some v => ret v
  | None => undefined IndexOutOfRange
  end.

(** [static_cast<int>(value)] for a [double] within the range of [int]:
    truncation towards zero. *)
Definition static_cast_int (value : Q) : Z :=
  Z.quot (Qnum value) (Zpos (Qden value)).

(** [XsSize] is [size_t], 64 bits wide; [unsigned int] is 32 bits wide. *)
Definition XsSize_modulus : Z := 2 ^ 64.
Definition unsigned_modulus : Z := 2 ^ 32.

(** [calibPhases.size() - 1], computed in [XsSize]. *)
Definition size_minus_one (calibPhases : list Z) : Z :=
  (Z.of_nat (List.length calibPhases) - 1) mod XsSize_modulus.

(** [static_cast<int>(phase)] for an [unsigned int]. *)
Definition unsigned_to_int (phase : Z) : Z :=
  if phase <? 2 ^ 31 then phase else phase - unsigned_modulus.

(* ------------------------------------------------------------------ *)
(** ** Body dimensions *)

(** The [for] loop of [setBodyDimensions] over the entries of the map. *)
Fixpoint applyBodyDimensions (bodyDimList : list string) (bodyDimensions : StdMap)
    : M unit :=
  match bodyDimensions with
  | [] => ret tt
  | (label, value) :: rest =>
      (if XsArray_find bodyDimList label =? -1 then ret tt
       else command (CSetBodyDimension label value)) ;;
      applyBodyDimensions bodyDimList rest
  end.

(** [!m_operationCompleted] *)
Definition operationPending : M bool :=
  completed <- member m_operationCompleted ;;
  ret (negb completed).

Definition setBodyDimensions (fuel : nat) (bodyDimensions : StdMap) : M bool :=
  connected <- invoke CStatus isConnected ;;
  if negb connected then ret false
  else
    completed <- member m_operationCompleted ;;
    if negb completed then ret false
    else
      bodyDimList <- invoke CBodyDimensionLabelList bodyDimensionLabelList ;;
      match bodyDimensions with
      | [] => ret false
      | _ :: _ =>
          assign (set_operationCompleted false) ;;
          applyBodyDimensions bodyDimList bodyDimensions ;;
          while fuel BodyDimensionsWait operationPending (sleep_for 10) ;;
          member m_operationCompleted
      end.

(** The [for] loop of [getBodyDimensions] over the labels. *)
Fixpoint collectBodyDimensions (bodyDimList : list string) (dimensions : StdMap)
    : M StdMap :=
  match bodyDimList with
  | [] => ret dimensions
  | body :: rest =>
      value <- invoke (CBodyDimensionValueEstimate body)
                      (fun x => bodyDimensionValueEstimate x body) ;;
      if negb (static_cast_int value =? -1)
      then collectBodyDimensions rest (map_insert body value dimensions)
      else collectBodyDimensions rest dimensions
  end.

(** [getBodyDimensions(dimensions)]: the result and the map it leaves in
    its reference parameter. *)
Definition getBodyDimensions (dimensions : StdMap) : M (bool * StdMap) :=
  connected <- invoke CStatus isConnected ;;
  if negb connected then ret (false, dimensions)
  else
    bodyDimList <- invoke CBodyDimensionLabelList bodyDimensionLabelList ;;
    filled <- collectBodyDimensions bodyDimList dimensions ;;
    ret (true, filled).

(** [getBodyDimension(bodyName, dim)]: the result and the value it leaves
    in [dim]. *)
Definition getBodyDimension (bodyName : string) (dim : Q) : M (bool * Q) :=
  r <- getBodyDimensions [] ;;
  let dimensions := snd r in
  match map_find bodyName dimensions with
  | Some _ => ret (false, dim)                  (* it != dimensions.end() *)
  | None => undefined EndIteratorDereference    (* dim = it->second at end() *)
  end.

(* ------------------------------------------------------------------ *)
(** ** Calibration *)

Definition cleanup : M unit := assign cleanup_members.

Definition abortCalibration : M bool :=
  inProgress <- member m_calibrationInProgress ;;
  if inProgress then command CAbortCalibration ;; ret true
  else ret false.

Definition isCalibrationInProgress : M bool := member m_calibrationInProgress.

(** [getLastCalibrationInfo(type, quality)]: [type] is a reference and
    receives the used calibration type; [quality] is passed by value, so the
    assignment made to it is lost.  The result is what the caller's two
    variables hold after the call. *)
Definition getLastCalibrationInfo (type : string) (quality : CalibrationQuality)
    : M (string * CalibrationQuality) :=
  used <- member m_usedCalibrationType ;;
  ret (used, quality).

(** [getMinimumAcceptableCalibrationQuality()]. *)
Definition getMinimumAcceptableCalibrationQuality : M CalibrationQuality :=
  member m_minimumAccaptableQuality.

Definition isCalibrationPerformed (calibrationType : string) : M bool :=
  invoke (CIsCalibrationPerformed calibrationType)
         (fun x => existsb (String.eqb calibrationType) (performedCalibrations x)).

(** [if (m_calibrationAborted) { cleanup(); return false; }] *)
Definition returnFalseIfAborted : M (option bool) :=
  aborted <- member m_calibrationAborted ;;
  if aborted then cleanup ;; ret (Some false)
  else ret None.

(** The conditions of the [while] loops, with the short circuit of [&&]. *)
Definition discardPending (calibrationType : string) : M bool :=
  performed <- isCalibrationPerformed calibrationType ;;
  if performed then aborted <- member m_calibrationAborted ;; ret (negb aborted)
  else ret false.

Definition framePending (startingFrame endingFrame : Z) : M bool :=
  if startingFrame <? endingFrame
  then aborted <- member m_calibrationAborted ;; ret (negb aborted)
  else ret false.

Definition processingPending : M bool :=
  processed <- member m_calibrationProcessed ;;
  if negb processed then aborted <- member m_calibrationAborted ;; ret (negb aborted)
  else ret false.

Definition abortPending : M bool :=
  aborted <- member m_calibrationAborted ;;
  ret (negb aborted).

Definition finalizePending : M bool :=
  completed <- member m_operationCompleted ;;
  if negb completed then aborted <- member m_calibrationAborted ;; ret (negb aborted)
  else ret false.

(** Lines 155-173: raise the in-progress flag, discard a previous
    calibration of the same type and wait for the discard. *)
Definition discardPrevious (fuel : nat) (calibrationType : string) : M (option bool) :=
  assign (set_calibrationInProgress true) ;;
  performed <- isCalibrationPerformed calibrationType ;;
  (if performed then
     assign (set_lastCalibration EmptyString UNKNOWN) ;;
     assign (set_operationCompleted false) ;;
     command (CClearCalibration calibrationType)
   else ret tt) ;;
  while fuel DiscardWait (discardPending calibrationType) (sleep_for 10) ;;
  returnFalseIfAborted.

(** Lines 192-198: the frames of one phase, 16 ms apart. *)
Fixpoint playFrames (fuel : nat) (startingFrame endingFrame : Z) : M unit :=
  c <- framePending startingFrame endingFrame ;;
  if c then
    match fuel with
    | O => spent FrameLoop
    | S fuel' =>
        command (CCalibrationPose startingFrame) ;;
        sleep_for 16 ;;
        playFrames fuel' (startingFrame + 1) endingFrame
    end
  else ret tt.

(** Lines 187-205: the [for] loop over the phases, from [phase] on. *)
Fixpoint followPhases (fuel frames : nat) (calibPhases : list Z) (phase : Z)
    : M (option bool) :=
  if phase <? size_minus_one calibPhases then
    match fuel with
    | O => spent PhaseLoop
    | S fuel' =>
        startingFrame <- XsArray_at calibPhases phase ;;
        endingFrame <- XsArray_at calibPhases ((phase + 1) mod unsigned_modulus) ;;
        command (CCalibrationPhaseText (unsigned_to_int phase)) ;;
        playFrames frames startingFrame endingFrame ;;
        proceed returnFalseIfAborted
                (followPhases fuel' frames calibPhases ((phase + 1) mod unsigned_modulus))
    end
  else ret None.

(** Lines 175-205: initialise, let the subject take position, collect. *)
Definition collectData (fuel : nat) (calibrationType : string) : M (option bool) :=
  command (CInitializeCalibration calibrationType) ;;
  calibPhases <- invoke CCalibrationPhaseList calibrationPhaseList ;;
  sleep_for 3000 ;;
  command CStartCalibration ;;
  followPhases fuel fuel calibPhases 0.

(** Lines 207-227: stop the collection and wait for the processing. *)
Definition processData (fuel : nat) : M (option bool) :=
  command CStopCalibration ;;
  assign (set_calibrationProcessed false) ;;
  sleep_for 100 ;;
  while fuel ProcessingWait processingPending (sleep_for 10) ;;
  returnFalseIfAborted.

(** Lines 285-290. *)
Definition commitCalibration (calibrationType : string) (quality : XmeCalibrationQuality)
    : M bool :=
  assign (set_lastCalibration calibrationType (CalibrationQualitiesMap quality)) ;;
  assign (set_calibrationInProgress false) ;;
  ret true.

(** Lines 267-290, the [else] branch and what follows it. *)
Definition applyCalibration (fuel : nat) (calibrationType : string)
    (quality : XmeCalibrationQuality) : M bool :=
  command CFinalizeCalibration ;;
  while fuel FinalizeWait finalizePending (sleep_for 10) ;;
  r <- returnFalseIfAborted ;;
  match r with
  | Some b => ret b
  | None => commitCalibration calibrationType quality
  end.

(** Lines 250-265, the [then] branch. *)
Definition rejectCalibration (fuel : nat) : M bool :=
  abortCalibration ;;
  while fuel AbortWait abortPending (sleep_for 10) ;;
  cleanup ;;
  ret false.

(** Lines 229-291: fetch the result and apply the quality policy. *)
Definition evaluateCalibration (fuel : nat) (calibrationType : string) : M bool :=
  result <- invoke (CCalibrationResult calibrationType)
                   (fun x => calibrationResult x calibrationType) ;;
  let quality := m_quality result in
  minimum <- member m_minimumAccaptableQuality ;;
  if quality_lt (CalibrationQualitiesMap (m_quality result)) minimum
  then rejectCalibration fuel
  else applyCalibration fuel calibrationType quality.

(** Lines 155-227, up to the evaluation. *)
Definition collectAndProcess (fuel : nat) (calibrationType : string) : M (option bool) :=
  proceed (discardPrevious fuel calibrationType)
          (proceed (collectData fuel calibrationType) (processData fuel)).

Definition calibrateWithType (fuel : nat) (calibrationType : string) : M bool :=
  r <- collectAndProcess fuel calibrationType ;;
  match r with
  | Some b => ret b
  | None => evaluateCalibration fuel calibrationType
  end.

(* ------------------------------------------------------------------ *)
(** ** Worlds used in the examples *)

Definition quiet : nat -> list EngineEvent := fun _ => [].

Definition at_times (events : list (nat * EngineEvent)) : nat -> list EngineEvent :=
  fun t => map snd (filter (fun p => Nat.eqb (fst p) t) events).

Definition suit (labels : list string) (performed : list string) (phases : list Z)
    (quality : XmeCalibrationQuality) : XmeControl :=
  {| isConnected := true;
     bodyDimensionLabelList := labels;
     bodyDimensionValueEstimate := fun _ => (-1)%Q;
     performedCalibrations := performed;
     calibrationPhaseList := phases;
     calibrationResult := fun _ => {| m_quality := quality; m_warnings := [] |} |}.

Definition world (c : XSensMVNCalibrator) (x : XmeControl)
    (sched : nat -> list EngineEvent) : World :=
  {| self := c; m_suitsConnector := x; engine := sched; now := 0%nat; calls := [] |}.

Definition ankle_suit : XmeControl :=
  suit ["ankleHeight"] [] [0; 10; 20] XCalQ_Good.

Definition unplugged : XmeControl :=
  {| isConnected := false;
     bodyDimensionLabelList := ["ankleHeight"];
     bodyDimensionValueEstimate := fun _ => (-1)%Q;
     performedCalibrations := [];
     calibrationPhaseList := [];
     calibrationResult := fun _ => {| m_quality := XCalQ_Unknown; m_warnings := [] |} |}.

(** The end-to-end scenario: no previous "Npose" calibration, phases
    [0,10) and [10,20), threshold Acceptable. *)
Definition npose (quality : XmeCalibrationQuality) (sched : nat -> list EngineEvent) : World :=
  world (construct ACCEPTABLE) (suit [] [] [0; 10; 20] quality) sched.

(** The same with a previous "Npose" calibration to discard. *)
Definition npose_again (quality : XmeCalibrationQuality) (sched : nat -> list EngineEvent)
    : World :=
  world (construct ACCEPTABLE) (suit [] ["Npose"] [0; 10; 20] quality) sched.

(** [getBodyDimension] on a suit that knows the height of the ankle: asked
    for it, it answers false and leaves [dim] alone; asked for a dimension
    the suit does not know, it dereferences the end iterator. *)
Definition measured_suit : XmeControl :=
  {| isConnected := true;
     bodyDimensionLabelList := ["ankleHeight"; "hipWidth"];
     bodyDimensionValueEstimate :=
       fun label => if String.eqb label "ankleHeight" then 1 # 10 else (-1)%Q;
     performedCalibrations := [];
     calibrationPhaseList := [0; 10; 20];
     calibrationResult := fun _ => {| m_quality := XCalQ_Good; m_warnings := [] |} |}.

(* ------------------------------------------------------------------ *)
(** ** Predicates on worlds and outcomes *)

Definition is_aborted (e : EngineEvent) : bool :=
  match e with OnCalibrationAborted => true | _ => false end.

Definition is_complete (e : EngineEvent) : bool :=
  match e with OnCalibrationComplete => true | _ => false end.

Definition is_processed (e : EngineEvent) : bool :=
  match e with OnCalibrationProcessed => true | _ => false end.

Definition cleaned (w : World) : Prop := self w = cleanup_members (self w).

(** What no statement of [calibrateWithType] and no engine event changes. *)
Definition same_answers (w0 w : World) : Prop :=
  m_minimumAccaptableQuality (self w) = m_minimumAccaptableQuality (self w0) /\
  calibrationResult (m_suitsConnector w) = calibrationResult (m_suitsConnector w0) /\
  calibrationPhaseList (m_suitsConnector w) = calibrationPhaseList (m_suitsConnector w0) /\
  engine w = engine w0.

Definition underway (w0 w : World) : Prop :=
  same_answers w0 w /\ m_calibrationInProgress (self w) = true.

(** What holds while a loop is still running: no flag that would end it has
    been raised. *)
Definition spinning (l : Loop) (w : World) : Prop :=
  match l with
  | BodyDimensionsWait => m_operationCompleted (self w) = false
  | DiscardWait | FrameLoop | AbortWait => m_calibrationAborted (self w) = false
  | ProcessingWait =>
      m_calibrationProcessed (self w) = false /\ m_calibrationAborted (self w) = false
  | FinalizeWait =>
      m_operationCompleted (self w) = false /\ m_calibrationAborted (self w) = false
  | PhaseLoop => True
  end.

(** What a stage that ends with [returnFalseIfAborted] establishes. *)
Definition stage_post (w0 : World) (r : option bool) (w1 : World) : Prop :=
  match r with
  | Some b => b = false /\ cleaned w1
  | None => underway w0 w1 /\ m_calibrationAborted (self w1) = false
  end.

(** What the collection loop establishes: it has no check of the aborted
    flag after its last test, so falling through says nothing of the flag. *)
Definition phases_post (w0 : World) (r : option bool) (w1 : World) : Prop :=
  match r with
  | Some b => b = false /\ cleaned w1
  | None => underway w0 w1
  end.

(** What a committed calibration looks like. *)
Definition committed (calibrationType : string) (quality : CalibrationQuality)
    (w : World) : Prop :=
  m_usedCalibrationType (self w) = calibrationType /\
  m_achievedCalibrationQuality (self w) = quality /\
  m_calibrationInProgress (self w) = false /\
  m_calibrationAborted (self w) = false.

(** A loop condition that only reads the members. *)
Definition reads (cond : M bool) (p : World -> bool) : Prop :=
  forall w, cond w = Returned (p w) w.

(** The world after [n] polls of a busy wait, 10 ms apart. *)
Fixpoint napping (n : nat) (w : World) : World :=
  match n with
  | O => w
  | S n' => napping n' (asleep 10 w)
  end.

(** The entries whose label the handle knows, and the calls made for them. *)
Definition known (bodyDimList : list string) (entry : string * Q) : bool :=
  negb (XsArray_find bodyDimList (fst entry) =? -1).

Definition requests (bodyDimList : list string) (bodyDimensions : StdMap) : list Call :=
  map (fun entry => CSetBodyDimension (fst entry) (snd entry))
      (filter (known bodyDimList) bodyDimensions).

Definition logged_all (cs : list Call) (w : World) : World :=
  {| self := self w;
     m_suitsConnector := m_suitsConnector w;
     engine := engine w;
     now := now w;
     calls := calls w ++ cs |}.

(** The world in which [setBodyDimensions] starts to wait. *)
Definition dimensions_sent (bodyDimensions : StdMap) (w : World) : World :=
  logged_all (requests (bodyDimensionLabelList (m_suitsConnector w)) bodyDimensions)
    (with_self (set_operationCompleted false (self w))
       (logged CBodyDimensionLabelList (logged CStatus w))).

(** What [isCalibrationPerformed] would answer in [w]. *)
Definition performed (calibrationType : string) (w : World) : bool :=
  existsb (String.eqb calibrationType) (performedCalibrations (m_suitsConnector w)).

(** The world after [n] rounds of a busy wait whose condition makes the
    call [c] on the handle each time it is tested: the test, then 10 ms of
    sleep. *)
Fixpoint asking (c : Call) (n : nat) (w : World) : World :=
  match n with
  | O => w
  | S n' => asking c n' (asleep 10 (logged c w))
  end.






(* ------------------------------------------------------------------ *)
(** ** Invariants, calls and contents *)

(** [keeps R I o]: if the run returned, [R] holds of the result and the
    world; if it did not (it is still looping, or ran into undefined
    behaviour), [I] holds of the world it has reached. *)
Definition keeps {A} (R : A -> World -> Prop) (I : World -> Prop) (o : Outcome A) : Prop :=
  match o with
  | Returned a w => R a w
  | StillLooping _ w => I w
  | Undefined _ w => I w
  end.

(** The calls of [calibrateWithType] before the evaluation. *)
Definition collecting (c : Call) : bool :=
  match c with
  | CIsCalibrationPerformed _ | CClearCalibration _ | CInitializeCalibration _
  | CCalibrationPhaseList | CStartCalibration | CCalibrationPhaseText _
  | CCalibrationPose _ | CStopCalibration => true
  | _ => false
  end.

(** What a stage leaves: [F] when it has returned from the function, [I]
    when control goes on. *)
Definition stage_keeps (I F : World -> Prop) (r : option bool) (w : World) : Prop :=
  match r with
  | Some _ => F w
  | None => I w
  end.

(** The calls appended to those of [w0] are all among [collecting]. *)
Definition only_collecting (w0 w : World) : Prop :=
  exists l, calls w = calls w0 ++ l /\ Forall (fun c => collecting c = true) l.

(** What [getBodyDimensions] finds for a label: the estimate of the handle,
    if the label is one of the handle's and the estimate does not truncate
    to -1. *)
Definition measured (x : XmeControl) (label : string) : option Q :=
  if existsb (String.eqb label) (bodyDimensionLabelList x)
     && negb (static_cast_int (bodyDimensionValueEstimate x label) =? -1)
  then Some (bodyDimensionValueEstimate x label)
  else None.

(** [s], [s+1], ..., [n] numbers in all. *)
Fixpoint Zrange (s : Z) (n : nat) : list Z :=
  match n with
  | O => []
  | S n' => s :: Zrange (s + 1) n'
  end.

(** The poses asked for in a phase that runs from [s] to [e]. *)
Definition frame_calls (s e : Z) : list Call :=
  map CCalibrationPose (Zrange s (Z.to_nat (e - s))).

(** The calls of the phases of a list of boundaries, the first of them
    being phase [i]; and the number of their frames. *)
Fixpoint collection_calls (i : nat) (boundaries : list Z) : list Call :=
  match boundaries with
  | [] => []
  | s :: rest =>
      match rest with
      | [] => []
      | e :: _ =>
          CCalibrationPhaseText (Z.of_nat i) :: frame_calls s e
          ++ collection_calls (S i) rest
      end
  end.

Fixpoint frames_of (boundaries : list Z) : nat :=
  match boundaries with
  | [] => O
  | s :: rest =>
      match rest with
      | [] => O
      | e :: _ => (Z.to_nat (e - s) + frames_of rest)%nat
      end
  end.

(** A suit with three labels: the estimate of the first is known, that of
    the second truncates to -1, that of the third is negative but truncates
    to 0. *)
Definition odd_suit : XmeControl :=
  {| isConnected := true;
     bodyDimensionLabelList := ["ankleHeight"; "hipWidth"; "kneeHeight"];
     bodyDimensionValueEstimate :=
       fun label => if String.eqb label "ankleHeight" then 1 # 10
                    else if String.eqb label "hipWidth" then (-3) # 2
                    else (-1) # 2;
     performedCalibrations := [];
     calibrationPhaseList := [0; 10; 20];
     calibrationResult := fun _ => {| m_quality := XCalQ_Good; m_warnings := [] |} |}.

(* ------------------------------------------------------------------ *)
(** ** Reasoning about outcomes *)

(** [satisfies R S o]: if the run returned, [R] holds of the result and the
    world; if it is still looping, [S] holds of the loop and the world. *)
Definition satisfies {A} (R : A -> World -> Prop) (S : Loop -> World -> Prop)
    (o : Outcome A) : Prop :=
  match o with
  | Returned a w => R a w
  | StillLooping l w => S l w
  | Undefined _ _ => True
  end.

Lemma satisfies_bind {A B} (m : M A) (k : A -> M B) R S w :
  satisfies (fun a w1 => satisfies R S (k a w1)) S (m w) ->
  satisfies R S (bind m k w).
Proof.
  unfold bind. destruct (m w); simpl; auto.
Qed.

Lemma satisfies_weaken {A} (R R' : A -> World -> Prop) (S S' : Loop -> World -> Prop) o :
  satisfies R S o ->
  (forall a w, R a w -> R' a w) ->
  (forall l w, S l w -> S' l w) ->
  satisfies R' S' o.
Proof.
  destruct o; simpl; auto.
Qed.

Lemma result_of_Some {A} (o : Outcome A) (a : A) :
  result_of o = Some a -> o = Returned a (world_of o).
Proof. destruct o; simpl; intros H; now inversion H. Qed.

Lemma bind_Returned {A B} (m : M A) (k : A -> M B) w a w1 :
  m w = Returned a w1 -> bind m k w = k a w1.
Proof. intros H. unfold bind. now rewrite H. Qed.

Lemma bind_StillLooping {A B} (m : M A) (k : A -> M B) w l w1 :
  m w = StillLooping l w1 -> bind m k w = StillLooping l w1.
Proof. intros H. unfold bind. now rewrite H. Qed.

(** Run the first statement of a sequence when it is a primitive one. *)
Ltac step := erewrite bind_Returned by reflexivity.

(** The rule for [while]: [I] is the invariant, [E] what the condition
    establishes when it is false, [S l] when it is true. *)
Lemma satisfies_while (I E : World -> Prop) (S : Loop -> World -> Prop) l cond body :
  (forall w, I w ->
     satisfies (fun b w1 => I w1 /\ (b = true -> S l w1) /\ (b = false -> E w1)) S (cond w)) ->
  (forall w, I w -> satisfies (fun _ w1 => I w1) S (body w)) ->
  forall fuel w, I w ->
    satisfies (fun _ w1 => I w1 /\ E w1) S (while fuel l cond body w).
Proof.
  intros Hcond Hbody.
  induction fuel as [|fuel IH]; intros w Hw; simpl;
    apply satisfies_bind; specialize (Hcond w Hw);
    destruct (cond w) as [b w1| |]; simpl in *; auto;
    destruct Hcond as (HI & Ht & Hf); destruct b; simpl; auto.
  apply satisfies_bind. specialize (Hbody w1 HI).
  destruct (body w1); simpl in *; auto.
Qed.

(* ------------------------------------------------------------------ *)
(** ** What a sleep can change *)

Lemma receive_aborted es : forall c,
  m_calibrationAborted (receive es c) = m_calibrationAborted c || existsb is_aborted es.
Proof.
  unfold receive. induction es as [|e es IH]; intros c; simpl.
  - now rewrite orb_false_r.
  - rewrite IH. destruct e; simpl; auto using orb_true_r.
Qed.

Lemma receive_completed es : forall c,
  m_operationCompleted (receive es c) = m_operationCompleted c || existsb is_complete es.
Proof.
  unfold receive. induction es as [|e es IH]; intros c; simpl.
  - now rewrite orb_false_r.
  - rewrite IH. destruct e; simpl; auto using orb_true_r.
Qed.

Lemma receive_processed es : forall c,
  m_calibrationProcessed (receive es c) = m_calibrationProcessed c || existsb is_processed es.
Proof.
  unfold receive. induction es as [|e es IH]; intros c; simpl.
  - now rewrite orb_false_r.
  - rewrite IH. destruct e; simpl; auto using orb_true_r.
Qed.

(** The callbacks touch nothing but the three flags. *)
Lemma receive_others es : forall c,
  m_minimumAccaptableQuality (receive es c) = m_minimumAccaptableQuality c /\
  m_achievedCalibrationQuality (receive es c) = m_achievedCalibrationQuality c /\
  m_usedCalibrationType (receive es c) = m_usedCalibrationType c /\
  m_calibrationInProgress (receive es c) = m_calibrationInProgress c.
Proof.
  unfold receive. induction es as [|e es IH]; intros c; simpl; auto.
  destruct (IH (callback e c)) as (H1 & H2 & H3 & H4).
  rewrite H1, H2, H3, H4. destruct e; simpl; auto.
Qed.

(** The engine's thread changes nothing of the handle's answers but the
    list of performed calibrations. *)
Lemma engine_effects_others es : forall x,
  isConnected (engine_effects es x) = isConnected x /\
  bodyDimensionLabelList (engine_effects es x) = bodyDimensionLabelList x /\
  bodyDimensionValueEstimate (engine_effects es x) = bodyDimensionValueEstimate x /\
  calibrationPhaseList (engine_effects es x) = calibrationPhaseList x /\
  calibrationResult (engine_effects es x) = calibrationResult x.
Proof.
  unfold engine_effects. induction es as [|e es IH]; intros x; simpl; auto.
  destruct (IH (engine_effect e x)) as (H1 & H2 & H3 & H4 & H5).
  rewrite H1, H2, H3, H4, H5. destruct e; simpl; auto.
Qed.

Lemma existsb_is_aborted es :
  existsb is_aborted es = true <-> In OnCalibrationAborted es.
Proof.
  rewrite existsb_exists. split.
  - intros (e & Hin & He). destruct e; try discriminate. exact Hin.
  - intros Hin. exists OnCalibrationAborted. auto.
Qed.

Lemma existsb_is_complete es :
  existsb is_complete es = true <-> In OnCalibrationComplete es.
Proof.
  rewrite existsb_exists. split.
  - intros (e & Hin & He). destruct e; try discriminate. exact Hin.
  - intros Hin. exists OnCalibrationComplete. auto.
Qed.

Lemma existsb_is_processed es :
  existsb is_processed es = true <-> In OnCalibrationProcessed es.
Proof.
  rewrite existsb_exists. split.
  - intros (e & Hin & He). destruct e; try discriminate. exact Hin.
  - intros Hin. exists OnCalibrationProcessed. auto.
Qed.

Lemma In_arrivals sched e t0 d :
  In e (arrivals sched t0 d) <-> exists t, (t0 <= t < t0 + d)%nat /\ In e (sched t).
Proof.
  unfold arrivals. rewrite in_flat_map. split; intros (t & H1 & H2); exists t.
  - apply in_seq in H1. auto.
  - split; auto. apply in_seq. auto.
Qed.

Arguments asleep : simpl never.

Lemma asleep_calls d w : calls (asleep d w) = calls w.
Proof. reflexivity. Qed.

Lemma asleep_now d w : now (asleep d w) = (now w + d)%nat.
Proof. reflexivity. Qed.

Lemma asleep_engine d w : engine (asleep d w) = engine w.
Proof. reflexivity. Qed.

Lemma asleep_aborted d w :
  m_calibrationAborted (self (asleep d w)) = true <->
  m_calibrationAborted (self w) = true \/
  exists t, (now w <= t < now w + d)%nat /\ In OnCalibrationAborted (engine w t).
Proof.
  unfold asleep; simpl. rewrite receive_aborted, orb_true_iff.
  now rewrite existsb_is_aborted, In_arrivals.
Qed.

Lemma asleep_completed d w :
  m_operationCompleted (self (asleep d w)) = true <->
  m_operationCompleted (self w) = true \/
  exists t, (now w <= t < now w + d)%nat /\ In OnCalibrationComplete (engine w t).
Proof.
  unfold asleep; simpl. rewrite receive_completed, orb_true_iff.
  now rewrite existsb_is_complete, In_arrivals.
Qed.

Lemma asleep_processed d w :
  m_calibrationProcessed (self (asleep d w)) = true <->
  m_calibrationProcessed (self w) = true \/
  exists t, (now w <= t < now w + d)%nat /\ In OnCalibrationProcessed (engine w t).
Proof.
  unfold asleep; simpl. rewrite receive_processed, orb_true_iff.
  now rewrite existsb_is_processed, In_arrivals.
Qed.

Lemma asleep_members d w :
  m_minimumAccaptableQuality (self (asleep d w)) = m_minimumAccaptableQuality (self w) /\
  m_achievedCalibrationQuality (self (asleep d w)) = m_achievedCalibrationQuality (self w) /\
  m_usedCalibrationType (self (asleep d w)) = m_usedCalibrationType (self w) /\
  m_calibrationInProgress (self (asleep d w)) = m_calibrationInProgress (self w).
Proof. unfold asleep; simpl. apply receive_others. Qed.

Lemma asleep_handle d w :
  isConnected (m_suitsConnector (asleep d w)) = isConnected (m_suitsConnector w) /\
  bodyDimensionLabelList (m_suitsConnector (asleep d w))
    = bodyDimensionLabelList (m_suitsConnector w) /\
  bodyDimensionValueEstimate (m_suitsConnector (asleep d w))
    = bodyDimensionValueEstimate (m_suitsConnector w) /\
  calibrationPhaseList (m_suitsConnector (asleep d w))
    = calibrationPhaseList (m_suitsConnector w) /\
  calibrationResult (m_suitsConnector (asleep d w))
    = calibrationResult (m_suitsConnector w).
Proof. unfold asleep; simpl. apply engine_effects_others. Qed.

(* ------------------------------------------------------------------ *)
(** ** [cleanup], [abortCalibration] and the callbacks *)

Lemma cleanup_members_twice c :
  cleanup_members (cleanup_members c) = cleanup_members c.
Proof. reflexivity. Qed.

(** C3. After [cleanup()] the used type is empty, the achieved quality is
    Unknown and the in-progress, aborted and processed flags are false, as
    in a freshly constructed calibrator; but [m_operationCompleted] is false,
    whereas the constructor initialises it to true. *)
Theorem cleanup_clears_operationCompleted (w : World) (q : CalibrationQuality) :
  exists w',
    cleanup w = Returned tt w' /\
    m_usedCalibrationType (self w') = m_usedCalibrationType (construct q) /\
    m_achievedCalibrationQuality (self w') = m_achievedCalibrationQuality (construct q) /\
    m_calibrationInProgress (self w') = m_calibrationInProgress (construct q) /\
    m_calibrationAborted (self w') = m_calibrationAborted (construct q) /\
    m_calibrationProcessed (self w') = m_calibrationProcessed (construct q) /\
    m_operationCompleted (self w') = false /\
    m_operationCompleted (construct q) = true.
Proof.
  eexists. split; [reflexivity|]. simpl. repeat split.
Qed.

(** C7. [cleanup()] is idempotent: for every starting state, calling it twice
    in a row leaves exactly the world that calling it once leaves, members
    and all; a world left by [cleanup()] is left unchanged by another one. *)
Theorem cleanup_idempotent (w : World) :
  exists w1,
    cleanup w = Returned tt w1 /\
    (cleanup ;; cleanup) w = Returned tt w1 /\
    cleanup w1 = Returned tt w1 /\
    cleaned w1.
Proof.
  exists (with_self (cleanup_members (self w)) w).
  split; [reflexivity|]. split; [reflexivity|].
  split; [|reflexivity].
  unfold cleanup, assign, with_self. simpl.
  now rewrite cleanup_members_twice.
Qed.

(** C4. [abortCalibration()] returns the value of the in-progress flag; it
    sends the abort command to the handle when the flag is true and nothing
    otherwise; it leaves every member, the aborted flag included, as it was;
    among the engine's events only [onCalibrationAborted] raises the aborted
    flag. *)
Theorem abortCalibration_contract (w : World) :
  exists w',
    abortCalibration w = Returned (m_calibrationInProgress (self w)) w' /\
    calls w' = calls w ++ (if m_calibrationInProgress (self w)
                           then [CAbortCalibration] else []) /\
    self w' = self w /\
    m_calibrationAborted (self w') = m_calibrationAborted (self w) /\
    (forall c, m_calibrationAborted (onCalibrationAborted c) = true) /\
    (forall e c, m_calibrationAborted (callback e c) = true ->
                 m_calibrationAborted c = true \/ e = OnCalibrationAborted).
Proof.
  unfold abortCalibration, bind, member, command, invoke, ret.
  destruct (m_calibrationInProgress (self w)) eqn:E; simpl;
    eexists; (split; [reflexivity|]); simpl; repeat split; auto.
  - intros e c. destruct e; simpl; auto.
  - symmetry. apply app_nil_r.
  - intros e c. destruct e; simpl; auto.
Qed.

(* ------------------------------------------------------------------ *)
(** ** [getBodyDimension] *)

Lemma collectBodyDimensions_returns bodyDimList : forall dimensions w,
  exists filled w', collectBodyDimensions bodyDimList dimensions w = Returned filled w'.
Proof.
  induction bodyDimList as [|body rest IH]; intros dimensions w; simpl.
  - unfold ret. eauto.
  - unfold bind, invoke.
    destruct (negb _); apply IH.
Qed.

Lemma getBodyDimensions_returns dimensions w :
  exists found filled w',
    getBodyDimensions dimensions w = Returned (found, filled) w'.
Proof.
  unfold getBodyDimensions, bind at 1, invoke at 1.
  destruct (negb _).
  - unfold ret. eauto.
  - unfold bind at 1, invoke at 1. unfold bind.
    match goal with
    | |- context [collectBodyDimensions ?l ?d ?w0] =>
        destruct (collectBodyDimensions_returns l d w0) as (filled & w' & ->)
    end.
    unfold ret. eauto.
Qed.

(** C9. [getBodyDimension] has its test inverted.  Whenever [bodyName] is in
    the map that [getBodyDimensions] produces, it returns false and leaves
    [dim] as it was; whenever [bodyName] is absent, it dereferences the end
    iterator of the map.  It never returns true. *)
Theorem getBodyDimension_inverted (bodyName : string) (dim : Q) (w : World) :
  exists (found : bool) (dimensions : StdMap) (w1 : World),
    getBodyDimensions [] w = Returned (found, dimensions) w1 /\
    match map_find bodyName dimensions with
    | Some _ => getBodyDimension bodyName dim w = Returned (false, dim) w1
    | None => getBodyDimension bodyName dim w = Undefined EndIteratorDereference w1
    end /\
    (forall d' w', getBodyDimension bodyName dim w <> Returned (true, d') w').
Proof.
  destruct (getBodyDimensions_returns [] w) as (found & dimensions & w1 & H).
  exists found, dimensions, w1. split; [exact H|].
  unfold getBodyDimension, bind. rewrite H. simpl.
  destruct (map_find bodyName dimensions); unfold ret, undefined;
    split; try reflexivity; intros d' w'; discriminate.
Qed.

(* ------------------------------------------------------------------ *)
(** ** The stages of [calibrateWithType] *)

Lemma same_answers_refl w : same_answers w w.
Proof. repeat split. Qed.

Lemma same_answers_trans w0 w1 w2 :
  same_answers w0 w1 -> same_answers w1 w2 -> same_answers w0 w2.
Proof.
  unfold same_answers. intros (A1 & A2 & A3 & A4) (B1 & B2 & B3 & B4).
  repeat split; congruence.
Qed.

Lemma same_answers_asleep w0 w d :
  same_answers w0 w -> same_answers w0 (asleep d w).
Proof.
  intros H. apply (same_answers_trans _ _ _ H).
  destruct (asleep_members d w) as (H1 & _).
  destruct (asleep_handle d w) as (_ & _ & _ & H4 & H5).
  repeat split; auto.
Qed.

Lemma underway_asleep w0 w d : underway w0 w -> underway w0 (asleep d w).
Proof.
  intros (H1 & H2). split.
  - now apply same_answers_asleep.
  - destruct (asleep_members d w) as (_ & _ & _ & H). congruence.
Qed.

Lemma underway_logged w0 w c : underway w0 w -> underway w0 (logged c w).
Proof. intros H. exact H. Qed.

(** The obligations on a loop condition: the invariant [H] still holds, and
    the condition is true only while the flags are down. *)
Ltac cond_post H :=
  simpl; split; [exact H | split; intros; try discriminate; simpl; auto].

Lemma returnFalseIfAborted_post w0 w :
  underway w0 w ->
  satisfies (stage_post w0) spinning (returnFalseIfAborted w).
Proof.
  intros H. unfold returnFalseIfAborted, bind, member.
  destruct (m_calibrationAborted (self w)) eqn:E; simpl; auto.
  split; reflexivity.
Qed.

Lemma discardPrevious_post fuel calibrationType w :
  satisfies (stage_post w) spinning (discardPrevious fuel calibrationType w).
Proof.
  unfold discardPrevious.
  apply satisfies_bind; simpl. apply satisfies_bind; simpl.
  apply satisfies_bind.
  match goal with
  | |- satisfies _ _ (?m ?w1) =>
      assert (Hm : exists w2, m w1 = Returned tt w2 /\ underway w w2)
  end.
  { destruct (existsb _ _); simpl; eexists; (split; [reflexivity|]);
      repeat split. }
  destruct Hm as (w2 & -> & Hw2). simpl.
  apply satisfies_bind.
  eapply satisfies_weaken.
  - apply (satisfies_while (underway w) (fun _ => True) spinning); [| |exact Hw2].
    + intros w3 H3. unfold discardPending, isCalibrationPerformed, bind, invoke, member, ret.
      destruct (existsb _ _); simpl;
        [destruct (m_calibrationAborted (self w3)) eqn:E|]; cond_post H3.
    + intros w3 H3. simpl. now apply underway_asleep.
  - simpl. intros _ w3 (H3 & _). now apply returnFalseIfAborted_post.
  - auto.
Qed.

Lemma satisfies_proceed {A} (m k : M (option A)) R S w :
  satisfies (fun r w1 => match r with
                         | Some b => R (Some b) w1
                         | None => satisfies R S (k w1)
                         end) S (m w) ->
  satisfies R S (proceed m k w).
Proof.
  intros H. unfold proceed. apply satisfies_bind.
  eapply satisfies_weaken; [exact H| |auto].
  intros [b|] w1; simpl; auto.
Qed.

Lemma playFrames_post w0 fuel : forall startingFrame endingFrame w,
  underway w0 w ->
  satisfies (fun _ w1 => underway w0 w1) spinning
            (playFrames fuel startingFrame endingFrame w).
Proof.
  induction fuel as [|fuel IH]; intros s e w H; simpl;
    unfold framePending, bind, member, ret;
    destruct (s <? e); simpl; auto;
    destruct (m_calibrationAborted (self w)) eqn:E; simpl; auto.
  apply IH. apply underway_asleep. exact H.
Qed.

Lemma followPhases_post w0 frames calibPhases fuel : forall phase w,
  underway w0 w ->
  satisfies (phases_post w0) spinning (followPhases fuel frames calibPhases phase w).
Proof.
  induction fuel as [|fuel IH]; intros phase w H; simpl;
    destruct (phase <? size_minus_one calibPhases); simpl; auto.
  apply satisfies_bind. unfold XsArray_at.
  destruct (nth_error calibPhases (Z.to_nat phase)); simpl; auto.
  apply satisfies_bind.
  destruct (nth_error calibPhases _); simpl; auto.
  apply satisfies_bind; simpl. apply satisfies_bind.
  eapply satisfies_weaken;
    [apply (playFrames_post w0); apply underway_logged; exact H| |auto].
  simpl. intros _ w1 H1. apply satisfies_proceed.
  eapply satisfies_weaken; [apply (returnFalseIfAborted_post w0 w1 H1)| |auto].
  intros [b|] w2; simpl; auto.
  intros (H2 & _). apply IH. exact H2.
Qed.


Lemma collectData_post w0 fuel calibrationType w :
  underway w0 w ->
  satisfies (phases_post w0) spinning (collectData fuel calibrationType w).
Proof.
  intros H. unfold collectData.
  apply satisfies_bind; simpl. apply satisfies_bind; simpl.
  apply satisfies_bind; simpl. apply satisfies_bind; simpl.
  apply followPhases_post.
  apply underway_logged, underway_asleep. exact H.
Qed.

Lemma processData_post w0 fuel w :
  underway w0 w ->
  satisfies (stage_post w0) spinning (processData fuel w).
Proof.
  intros H. unfold processData.
  apply satisfies_bind; simpl. apply satisfies_bind; simpl.
  apply satisfies_bind; simpl. apply satisfies_bind.
  eapply satisfies_weaken.
  - apply (satisfies_while (underway w0) (fun _ => True) spinning).
    + intros w3 H3. unfold processingPending, bind, member, ret.
      destruct (m_calibrationProcessed (self w3)) eqn:P; simpl;
        [|destruct (m_calibrationAborted (self w3)) eqn:E]; cond_post H3.
    + intros w3 H3. simpl. now apply underway_asleep.
    + apply underway_asleep. exact H.
  - simpl. intros _ w3 (H3 & _). now apply returnFalseIfAborted_post.
  - auto.
Qed.

Lemma collectAndProcess_post fuel calibrationType w :
  satisfies (stage_post w) spinning (collectAndProcess fuel calibrationType w).
Proof.
  unfold collectAndProcess. apply satisfies_proceed.
  eapply satisfies_weaken; [apply discardPrevious_post| |auto].
  intros [b|] w1; simpl; auto. intros (H1 & _).
  apply satisfies_proceed.
  eapply satisfies_weaken; [apply (collectData_post w _ _ _ H1)| |auto].
  intros [b|] w2; simpl; auto. intros H2.
  apply processData_post. exact H2.
Qed.

Lemma abortCalibration_underway w0 w :
  underway w0 w ->
  abortCalibration w = Returned true (logged CAbortCalibration w).
Proof.
  intros (_ & Hp). unfold abortCalibration, bind, member. now rewrite Hp.
Qed.

Lemma rejectCalibration_post w0 fuel w :
  underway w0 w ->
  satisfies (fun b w1 => b = false /\ cleaned w1) spinning (rejectCalibration fuel w).
Proof.
  intros H. unfold rejectCalibration.
  apply satisfies_bind. rewrite (abortCalibration_underway w0 w H). simpl.
  apply satisfies_bind.
  eapply satisfies_weaken.
  - apply (satisfies_while (fun _ => True) (fun _ => True) spinning); [| |exact I].
    + intros w3 _. unfold abortPending, bind, member, ret.
      destruct (m_calibrationAborted (self w3)) eqn:E; cond_post I.
    + intros w3 _. simpl. exact I.
  - simpl. intros _ w3 _. split; reflexivity.
  - auto.
Qed.

Lemma applyCalibration_post w0 fuel calibrationType quality w :
  underway w0 w ->
  satisfies (fun (b : bool) w1 =>
               if b then committed calibrationType (CalibrationQualitiesMap quality) w1
               else cleaned w1)
            spinning (applyCalibration fuel calibrationType quality w).
Proof.
  intros H. unfold applyCalibration.
  apply satisfies_bind; simpl. apply satisfies_bind.
  eapply satisfies_weaken.
  - apply (satisfies_while (underway w0) (fun _ => True) spinning).
    + intros w3 H3. unfold finalizePending, bind, member, ret.
      destruct (m_operationCompleted (self w3)) eqn:P; simpl;
        [|destruct (m_calibrationAborted (self w3)) eqn:E]; cond_post H3.
    + intros w3 H3. simpl. now apply underway_asleep.
    + apply underway_logged. exact H.
  - simpl. intros _ w3 (H3 & _). apply satisfies_bind.
    unfold returnFalseIfAborted, bind, member.
    destruct (m_calibrationAborted (self w3)) eqn:E; simpl.
    + reflexivity.
    + repeat split; auto.
  - auto.
Qed.

(* ------------------------------------------------------------------ *)
(** ** Busy waits *)

Lemma napping_calls n : forall w, calls (napping n w) = calls w.
Proof. induction n as [|n IH]; intros w; simpl; auto. now rewrite IH. Qed.

Lemma napping_now n : forall w, now (napping n w) = (now w + 10 * n)%nat.
Proof.
  induction n as [|n IH]; intros w; simpl napping.
  - lia.
  - rewrite IH, asleep_now. lia.
Qed.

Lemma napping_engine n : forall w, engine (napping n w) = engine w.
Proof. induction n as [|n IH]; intros w; simpl; auto. now rewrite IH. Qed.

Lemma napping_underway w0 n : forall w, underway w0 w -> underway w0 (napping n w).
Proof.
  induction n as [|n IH]; intros w H; simpl; auto using underway_asleep.
Qed.

Lemma napping_members n : forall w,
  m_minimumAccaptableQuality (self (napping n w)) = m_minimumAccaptableQuality (self w) /\
  m_achievedCalibrationQuality (self (napping n w)) = m_achievedCalibrationQuality (self w) /\
  m_usedCalibrationType (self (napping n w)) = m_usedCalibrationType (self w) /\
  m_calibrationInProgress (self (napping n w)) = m_calibrationInProgress (self w).
Proof.
  induction n as [|n IH]; intros w; simpl; auto.
  destruct (IH (asleep 10 w)) as (H1 & H2 & H3 & H4).
  destruct (asleep_members 10 w) as (G1 & G2 & G3 & G4).
  repeat split; congruence.
Qed.

Section Flag.

(** One of the three flags, with the event that raises it. *)
Variable flag : XSensMVNCalibrator -> bool.
Variable event : EngineEvent.
Hypothesis asleep_flag : forall d w,
  flag (self (asleep d w)) = true <->
  flag (self w) = true \/
  exists t, (now w <= t < now w + d)%nat /\ In event (engine w t).

Lemma napping_flag n : forall w,
  flag (self (napping n w)) = true <->
  flag (self w) = true \/
  exists t, (now w <= t < now w + 10 * n)%nat /\ In event (engine w t).
Proof.
  induction n as [|n IH]; intros w; simpl napping.
  - split; auto. intros [H|(t & Ht & _)]; auto. lia.
  - rewrite IH, asleep_flag, asleep_now, asleep_engine. split.
    + intros [[H|(t & Ht & Hin)]|(t & Ht & Hin)]; auto;
        right; exists t; split; auto; lia.
    + intros [H|(t & Ht & Hin)]; auto.
      destruct (Nat.lt_ge_cases t (now w + 10)).
      * left; right. exists t. split; auto. lia.
      * right. exists t. split; auto. lia.
Qed.

Lemma napping_flag_false n w :
  flag (self (napping n w)) = false <->
  flag (self w) = false /\
  forall t, (now w <= t < now w + 10 * n)%nat -> ~ In event (engine w t).
Proof.
  rewrite <- !not_true_iff_false, napping_flag. split.
  - intros H. split; [tauto|]. intros t Ht Hin. apply H. eauto.
  - intros (H1 & H2) [H|(t & Ht & Hin)]; [tauto|]. exact (H2 t Ht Hin).
Qed.

End Flag.

Lemma napping_aborted n w :
  m_calibrationAborted (self (napping n w)) = true <->
  m_calibrationAborted (self w) = true \/
  exists t, (now w <= t < now w + 10 * n)%nat /\ In OnCalibrationAborted (engine w t).
Proof. exact (napping_flag _ _ asleep_aborted n w). Qed.

Lemma napping_completed n w :
  m_operationCompleted (self (napping n w)) = true <->
  m_operationCompleted (self w) = true \/
  exists t, (now w <= t < now w + 10 * n)%nat /\ In OnCalibrationComplete (engine w t).
Proof. exact (napping_flag _ _ asleep_completed n w). Qed.

Lemma napping_not_aborted n w :
  m_calibrationAborted (self (napping n w)) = false <->
  m_calibrationAborted (self w) = false /\
  forall t, (now w <= t < now w + 10 * n)%nat -> ~ In OnCalibrationAborted (engine w t).
Proof. exact (napping_flag_false _ _ asleep_aborted n w). Qed.

Lemma napping_not_completed n w :
  m_operationCompleted (self (napping n w)) = false <->
  m_operationCompleted (self w) = false /\
  forall t, (now w <= t < now w + 10 * n)%nat -> ~ In OnCalibrationComplete (engine w t).
Proof. exact (napping_flag_false _ _ asleep_completed n w). Qed.

Lemma while_O l cond p body (Hreads : reads cond p) w :
  while 0 l cond body w = if p w then StillLooping l w else Returned tt w.
Proof.
  simpl. unfold bind. rewrite Hreads. now destruct (p w).
Qed.

Lemma while_S fuel l cond p body (Hreads : reads cond p) w :
  while (S fuel) l cond body w =
  if p w then (body ;; while fuel l cond body) w else Returned tt w.
Proof.
  simpl. unfold bind at 1. rewrite Hreads. now destruct (p w).
Qed.

(** A busy wait whose condition only reads the members either returns after
    the first poll that finds the condition false, or has found it true at
    every poll. *)
Lemma wait_outcome l cond p (Hreads : reads cond p) fuel : forall w,
  (exists n, (n <= fuel)%nat /\
     while fuel l cond (sleep_for 10) w = Returned tt (napping n w) /\
     p (napping n w) = false /\
     forall k, (k < n)%nat -> p (napping k w) = true) \/
  (while fuel l cond (sleep_for 10) w = StillLooping l (napping fuel w) /\
   forall k, (k <= fuel)%nat -> p (napping k w) = true).
Proof.
  induction fuel as [|fuel IH]; intros w;
    [rewrite (while_O _ _ _ _ Hreads)|rewrite (while_S _ _ _ _ _ Hreads)];
    destruct (p w) eqn:Hp.
  - right. split; [reflexivity|]. intros k Hk.
    assert (k = 0)%nat as -> by lia. exact Hp.
  - left. exists 0%nat. repeat split; auto. intros; lia.
  - destruct (IH (asleep 10 w)) as [(n & Hn & Hrun & Hend & Hbefore)|(Hrun & Hall)].
    + left. exists (S n). simpl napping. repeat split; auto; try lia.
      intros [|k] Hk; simpl; auto. apply Hbefore. lia.
    + right. simpl napping. split; auto.
      intros [|k] Hk; simpl; auto. apply Hall. lia.
  - left. exists 0%nat. repeat split; auto; try lia.
Qed.

(** If some poll within the fuel finds the condition false, the wait
    returns, at the first such poll. *)
Lemma wait_returns l cond p (Hreads : reads cond p) fuel w n :
  (n <= fuel)%nat -> p (napping n w) = false ->
  exists m, (m <= n)%nat /\
    while fuel l cond (sleep_for 10) w = Returned tt (napping m w) /\
    p (napping m w) = false.
Proof.
  intros Hn Hp.
  destruct (wait_outcome l cond p Hreads fuel w)
    as [(m & Hm & Hrun & Hend & Hbefore)|(_ & Hall)].
  - exists m. repeat split; auto.
    destruct (Nat.le_gt_cases m n); auto.
    rewrite (Hbefore n) in Hp by lia. discriminate.
  - rewrite (Hall n Hn) in Hp. discriminate.
Qed.

Lemma operationPending_reads :
  reads operationPending (fun w => negb (m_operationCompleted (self w))).
Proof. intros w. reflexivity. Qed.

Lemma abortPending_reads :
  reads abortPending (fun w => negb (m_calibrationAborted (self w))).
Proof. intros w. reflexivity. Qed.

Lemma finalizePending_reads :
  reads finalizePending
        (fun w => negb (m_operationCompleted (self w))
                  && negb (m_calibrationAborted (self w))).
Proof.
  intros w. unfold finalizePending, bind, member, ret.
  destruct (m_operationCompleted (self w)); reflexivity.
Qed.

Lemma processingPending_reads :
  reads processingPending
        (fun w => negb (m_calibrationProcessed (self w))
                  && negb (m_calibrationAborted (self w))).
Proof.
  intros w. unfold processingPending, bind, member, ret.
  destruct (m_calibrationProcessed (self w)); reflexivity.
Qed.





Lemma asking_calls c n : forall w, calls (asking c n w) = calls w ++ repeat c n.
Proof.
  induction n as [|n IH]; intros w; simpl.
  - now rewrite app_nil_r.
  - rewrite IH, asleep_calls. simpl. now rewrite <- app_assoc.
Qed.

Lemma asking_now c n : forall w, now (asking c n w) = (now w + 10 * n)%nat.
Proof.
  induction n as [|n IH]; intros w; simpl asking.
  - lia.
  - rewrite IH, asleep_now. simpl. lia.
Qed.




(* ------------------------------------------------------------------ *)
(** ** [setBodyDimensions] *)

Lemma logged_all_nil w : logged_all [] w = w.
Proof. destruct w. unfold logged_all. simpl. now rewrite app_nil_r. Qed.

Lemma logged_all_cons c cs w : logged_all cs (logged c w) = logged_all (c :: cs) w.
Proof. unfold logged_all, logged. simpl. now rewrite <- app_assoc. Qed.

Lemma applyBodyDimensions_run bodyDimList bodyDimensions : forall w,
  applyBodyDimensions bodyDimList bodyDimensions w
  = Returned tt (logged_all (requests bodyDimList bodyDimensions) w).
Proof.
  induction bodyDimensions as [|[label value] rest IH]; intros w; simpl.
  - unfold ret. now rewrite logged_all_nil.
  - unfold requests, known. simpl.
    destruct (XsArray_find bodyDimList label =? -1); simpl; unfold bind; simpl.
    + apply IH.
    + rewrite IH. now rewrite logged_all_cons.
Qed.

Lemma setBodyDimensions_waits fuel bodyDimensions w :
  isConnected (m_suitsConnector w) = true ->
  m_operationCompleted (self w) = true ->
  bodyDimensions <> [] ->
  setBodyDimensions fuel bodyDimensions w
  = (while fuel BodyDimensionsWait operationPending (sleep_for 10) ;;
     member m_operationCompleted) (dimensions_sent bodyDimensions w).
Proof.
  intros Hc Ho Hne. destruct bodyDimensions as [|entry rest]; [congruence|].
  unfold setBodyDimensions.
  step. rewrite Hc. cbn [negb].
  step. change (self (logged CStatus w)) with (self w). rewrite Ho. cbn [negb].
  step. step. unfold bind at 1. rewrite applyBodyDimensions_run. reflexivity.
Qed.

(** C10. When no label of a non-empty map belongs to the handle's labels,
    [setBodyDimensions] lowers [m_operationCompleted] and sends no
    [setBodyDimension]; if the engine raises no completion from then on, the
    wait is still running after any number of polls. *)
Theorem setBodyDimensions_unknown_labels_never_complete
    (fuel : nat) (bodyDimensions : StdMap) (w : World) :
  isConnected (m_suitsConnector w) = true ->
  m_operationCompleted (self w) = true ->
  bodyDimensions <> [] ->
  (forall entry, In entry bodyDimensions ->
     XsArray_find (bodyDimensionLabelList (m_suitsConnector w)) (fst entry) = -1) ->
  (forall t, (now w <= t)%nat -> ~ In OnCalibrationComplete (engine w t)) ->
  exists w',
    setBodyDimensions fuel bodyDimensions w = StillLooping BodyDimensionsWait w' /\
    m_operationCompleted (self w') = false /\
    calls w' = calls w ++ [CStatus; CBodyDimensionLabelList] /\
    now w' = (now w + 10 * fuel)%nat.
Proof.
  intros Hc Ho Hne Hunknown Hquiet.
  rewrite (setBodyDimensions_waits _ _ _ Hc Ho Hne).
  assert (Hreq : requests (bodyDimensionLabelList (m_suitsConnector w)) bodyDimensions = []).
  { unfold requests. replace (filter _ bodyDimensions) with (@nil (string * Q)); auto.
    symmetry. clear Hne. induction bodyDimensions as [|e rest IH]; simpl; auto.
    unfold known at 1. rewrite (Hunknown e) by (left; reflexivity). simpl.
    apply IH. intros e' He'. apply Hunknown. right. exact He'. }
  set (w2 := dimensions_sent bodyDimensions w).
  assert (Hstill : forall k, m_operationCompleted (self (napping k w2)) = false).
  { intros k. apply napping_not_completed. split; [reflexivity|].
    intros t Ht. apply Hquiet. unfold w2 in Ht. simpl in Ht. lia. }
  unfold bind.
  destruct (wait_outcome BodyDimensionsWait _ _ operationPending_reads fuel w2)
    as [(n & _ & _ & Hend & _)|(Hrun & _)].
  - simpl in Hend. rewrite Hstill in Hend. discriminate.
  - rewrite Hrun. exists (napping fuel w2). repeat split.
    + apply Hstill.
    + rewrite napping_calls. unfold w2, dimensions_sent. rewrite Hreq.
      rewrite logged_all_nil. simpl. now rewrite <- app_assoc.
    + rewrite napping_now. reflexivity.
Qed.

Lemma XsArray_find_ge l s : -1 <= XsArray_find l s.
Proof.
  induction l as [|x rest IH]; simpl; [lia|].
  destruct (String.eqb x s); [lia|].
  destruct (XsArray_find rest s =? -1); lia.
Qed.

(** [find] answers -1 exactly for the strings that are not in the array. *)
Lemma XsArray_find_absent l s : XsArray_find l s = -1 <-> ~ In s l.
Proof.
  induction l as [|x rest IH]; simpl.
  - tauto.
  - pose proof (XsArray_find_ge rest s) as Hge.
    destruct (String.eqb x s) eqn:E.
    + apply String.eqb_eq in E. split; [discriminate|]. intros H. exfalso. auto.
    + apply String.eqb_neq in E.
      destruct (XsArray_find rest s =? -1) eqn:F.
      * apply Z.eqb_eq in F. split; [|reflexivity].
        intros _ [H|H]; [congruence|]. apply IH in F. contradiction.
      * apply Z.eqb_neq in F. split; [lia|].
        intros Hn. exfalso. apply F, IH. tauto.
Qed.

Lemma requests_spec labels bodyDimensions label value :
  In (CSetBodyDimension label value) (requests labels bodyDimensions) <->
  In (label, value) bodyDimensions /\ In label labels.
Proof.
  unfold requests. rewrite in_map_iff. split.
  - intros ((l, v) & Heq & Hin). simpl in Heq. inversion Heq; subst.
    apply filter_In in Hin. destruct Hin as (Hin & Hk). split; auto.
    unfold known in Hk. simpl in Hk. apply negb_true_iff, Z.eqb_neq in Hk.
    destruct (in_dec string_dec label labels) as [H|H]; auto.
    apply XsArray_find_absent in H. contradiction.
  - intros (Hin & Hl). exists (label, value). split; auto.
    apply filter_In. split; auto.
    unfold known. simpl. apply negb_true_iff, Z.eqb_neq.
    intros H. apply XsArray_find_absent in H. contradiction.
Qed.

(** [setBodyDimensions] past its three tests: it polls
    [m_operationCompleted] every 10 ms from the world in which the
    dimensions were sent, and returns true at the first poll that finds it
    raised. *)
Lemma setBodyDimensions_run fuel bodyDimensions w :
  isConnected (m_suitsConnector w) = true ->
  m_operationCompleted (self w) = true ->
  bodyDimensions <> [] ->
  let poll := fun k => napping k (dimensions_sent bodyDimensions w) in
  (exists n, (n <= fuel)%nat /\
     (forall k, (k < n)%nat -> m_operationCompleted (self (poll k)) = false) /\
     m_operationCompleted (self (poll n)) = true /\
     setBodyDimensions fuel bodyDimensions w = Returned true (poll n)) \/
  ((forall k, (k <= fuel)%nat -> m_operationCompleted (self (poll k)) = false) /\
   setBodyDimensions fuel bodyDimensions w = StillLooping BodyDimensionsWait (poll fuel)).
Proof.
  intros Hc Ho Hne poll.
  rewrite (setBodyDimensions_waits _ _ _ Hc Ho Hne).
  destruct (wait_outcome BodyDimensionsWait _ _ operationPending_reads fuel
              (dimensions_sent bodyDimensions w))
    as [(n & Hn & Hrun & Hend & Hbefore)|(Hrun & Hall)].
  - left. exists n. apply negb_false_iff in Hend.
    split; [exact Hn|]. split; [|split; [exact Hend|]].
    + intros k Hk. apply negb_true_iff. exact (Hbefore k Hk).
    + rewrite (bind_Returned _ _ _ _ _ Hrun). unfold member, poll. now rewrite Hend.
  - right. split.
    + intros k Hk. apply negb_true_iff. exact (Hall k Hk).
    + apply (bind_StillLooping _ _ _ _ _ Hrun).
Qed.

(** The flag that [setBodyDimensions] has lowered is raised again by a
    completion of the engine and by nothing else. *)
Lemma dimensions_sent_completed bodyDimensions w k :
  m_operationCompleted (self (napping k (dimensions_sent bodyDimensions w))) = true <->
  exists t, (now w <= t < now w + 10 * k)%nat /\ In OnCalibrationComplete (engine w t).
Proof.
  rewrite napping_completed.
  change (m_operationCompleted (self (dimensions_sent bodyDimensions w))) with false.
  change (now (dimensions_sent bodyDimensions w)) with (now w).
  change (engine (dimensions_sent bodyDimensions w)) with (engine w).
  split; [intros [H|H]; [discriminate|exact H]|auto].
Qed.

Lemma dimensions_sent_calls bodyDimensions w :
  calls (dimensions_sent bodyDimensions w)
  = calls w ++ [CStatus; CBodyDimensionLabelList]
    ++ requests (bodyDimensionLabelList (m_suitsConnector w)) bodyDimensions.
Proof.
  unfold dimensions_sent. simpl. now rewrite <- !app_assoc.
Qed.

(** C6, as amended. [setBodyDimensions] returns false when the handle is
    not connected, when [m_operationCompleted] is false or when the map is
    empty; it then has taken no time, has left the members as they were and
    has sent no command: the calls it has made are the query [status()]
    alone when the handle is not connected or [m_operationCompleted] is
    false, and [status()] followed by [bodyDimensionLabelList()] when only
    the map is at fault.  For a connected handle, [m_operationCompleted]
    true and a non-empty map, it sends [setBodyDimension] for exactly the
    entries whose label is among the handle's labels, in the order of the
    map, and then waits for [m_operationCompleted]: it returns true at the
    first of its polls, 10 ms apart, by which the engine has signalled a
    completion, never before the first poll, and it is still waiting when
    no completion has come. *)
Theorem setBodyDimensions_contract (fuel : nat) (bodyDimensions : StdMap) (w : World) :
  let connected := isConnected (m_suitsConnector w) in
  let idle := m_operationCompleted (self w) in
  let labels := bodyDimensionLabelList (m_suitsConnector w) in
  let run := setBodyDimensions fuel bodyDimensions w in
  let completes_by := fun n : nat =>
    exists t, (now w <= t < now w + 10 * n)%nat /\ In OnCalibrationComplete (engine w t) in
  (connected = false \/ idle = false \/ bodyDimensions = [] ->
   exists w' queries,
     run = Returned false w' /\
     self w' = self w /\
     now w' = now w /\
     calls w' = calls w ++ queries /\
     queries = (if connected && idle then [CStatus; CBodyDimensionLabelList]
                else [CStatus]) /\
     existsb is_command queries = false) /\
  (connected = true -> idle = true -> bodyDimensions <> [] ->
   let sent := calls w ++ [CStatus; CBodyDimensionLabelList]
               ++ requests labels bodyDimensions in
   (forall label value,
      In (CSetBodyDimension label value) (requests labels bodyDimensions) <->
      In (label, value) bodyDimensions /\ In label labels) /\
   (forall n, (n <= fuel)%nat -> completes_by n ->
      exists w' m, (0 < m <= n)%nat /\
        run = Returned true w' /\
        m_operationCompleted (self w') = true /\
        calls w' = sent /\
        now w' = (now w + 10 * m)%nat /\
        completes_by m /\ ~ completes_by (m - 1)%nat) /\
   (~ completes_by fuel ->
      exists w',
        run = StillLooping BodyDimensionsWait w' /\
        m_operationCompleted (self w') = false /\
        calls w' = sent /\
        now w' = (now w + 10 * fuel)%nat)).
Proof.
  intros connected idle labels run completes_by. split.
  - intros Hfail. unfold run, setBodyDimensions. step. fold connected.
    destruct connected eqn:Hc; cbn [negb andb].
    + step. change (self (logged CStatus w)) with (self w). fold idle.
      destruct idle eqn:Ho; cbn [negb].
      * step. destruct Hfail as [H|[H|H]]; try discriminate. subst bodyDimensions.
        eexists. exists [CStatus; CBodyDimensionLabelList].
        split; [reflexivity|]. simpl. rewrite <- app_assoc. auto 6.
      * eexists. exists [CStatus]. split; [reflexivity|]. simpl. auto 6.
    + eexists. exists [CStatus]. split; [reflexivity|]. simpl. auto 6.
  - intros Hc Ho Hne sent. split; [apply requests_spec|].
    assert (Hmono : forall a b, (a <= b)%nat -> completes_by a -> completes_by b).
    { intros a b Hab (t & Ht & Hin). exists t. split; [lia|exact Hin]. }
    assert (Hraised : forall k,
              m_operationCompleted (self (napping k (dimensions_sent bodyDimensions w))) = true
              <-> completes_by k).
    { intros k. apply dimensions_sent_completed. }
    destruct (setBodyDimensions_run fuel bodyDimensions w Hc Ho Hne)
      as [(m & Hm & Hbefore & Hend & Hrun)|(Hall & Hrun)]; fold run in Hrun; split.
    + intros n Hn Hby.
      assert (Hpos : (0 < m)%nat).
      { destruct m; [|lia]. simpl in Hend. discriminate. }
      assert (Hmn : (m <= n)%nat).
      { destruct (Nat.le_gt_cases m n) as [H|H]; auto.
        apply Hraised in Hby.
        rewrite (Hbefore n H) in Hby. discriminate. }
      exists (napping m (dimensions_sent bodyDimensions w)), m.
      split; [lia|]. split; [exact Hrun|]. split; [exact Hend|].
      split; [rewrite napping_calls; apply dimensions_sent_calls|].
      split; [rewrite napping_now; reflexivity|].
      split; [apply Hraised; exact Hend|].
      intros Hearlier. apply Hraised in Hearlier.
      rewrite Hbefore in Hearlier by lia. discriminate.
    + intros Hnot. exfalso. apply Hnot. apply (Hmono m fuel Hm).
      apply Hraised. exact Hend.
    + intros n Hn Hby. apply Hraised in Hby.
      rewrite (Hall n Hn) in Hby. discriminate.
    + intros _. exists (napping fuel (dimensions_sent bodyDimensions w)).
      split; [exact Hrun|]. split; [apply Hall; lia|].
      split; [rewrite napping_calls; apply dimensions_sent_calls|].
      rewrite napping_now. reflexivity.
Qed.

(** After [cleanup()], [setBodyDimensions] takes the branch that reports a
    calibration in progress, although none is. *)
Lemma setBodyDimensions_refused_after_cleanup fuel bodyDimensions w :
  isConnected (m_suitsConnector w) = true ->
  exists w',
    bind cleanup (fun _ => setBodyDimensions fuel bodyDimensions) w = Returned false w' /\
    calls w' = calls w ++ [CStatus] /\
    m_calibrationInProgress (self w') = false.
Proof.
  intros Hc. unfold setBodyDimensions. step. step.
  change (isConnected (m_suitsConnector (with_self (cleanup_members (self w)) w)))
    with (isConnected (m_suitsConnector w)).
  rewrite Hc. cbn [negb]. step. simpl.
  eexists. split; [reflexivity|]. split; reflexivity.
Qed.

(* ------------------------------------------------------------------ *)
(** ** The collection loop on an empty phase list *)

Lemma size_minus_one_nil : size_minus_one [] = 2 ^ 64 - 1.
Proof. reflexivity. Qed.

Lemma followPhases_nil fuel frames w :
  followPhases (S fuel) frames [] 0 w = Undefined IndexOutOfRange w.
Proof. reflexivity. Qed.

Lemma proceed_None {A} (m k : M (option A)) w w1 :
  m w = Returned None w1 -> proceed m k w = k w1.
Proof. intros H. unfold proceed. now rewrite (bind_Returned _ _ _ _ _ H). Qed.

(** C8. With an empty phase list, [calibPhases.size() - 1] wraps around to
    2^64 - 1, so the test of the [for] loop succeeds for [phase = 0] and the
    first iteration reads [calibPhases[0]], past the end of the empty list:
    once the discard stage is over, [calibrateWithType] initialises and
    starts the calibration and then runs into that read. *)
Theorem empty_phase_list_underflows (fuel : nat) (calibrationType : string) (w w1 : World) :
  calibrationPhaseList (m_suitsConnector w) = [] ->
  discardPrevious (S fuel) calibrationType w = Returned None w1 ->
  size_minus_one (calibrationPhaseList (m_suitsConnector w)) = 2 ^ 64 - 1 /\
  (0 <? size_minus_one (calibrationPhaseList (m_suitsConnector w))) = true /\
  exists w',
    calibrateWithType (S fuel) calibrationType w = Undefined IndexOutOfRange w' /\
    calls w' = calls w1 ++ [CInitializeCalibration calibrationType;
                            CCalibrationPhaseList; CStartCalibration] /\
    now w' = (now w1 + 3000)%nat.
Proof.
  intros Hempty Hdiscard. rewrite Hempty.
  split; [reflexivity|]. split; [reflexivity|].
  pose proof (discardPrevious_post (S fuel) calibrationType w) as Hpost.
  rewrite Hdiscard in Hpost. destruct Hpost as (((_ & _ & Hphases & _) & _) & _).
  rewrite Hempty in Hphases.
  unfold calibrateWithType, collectAndProcess.
  unfold bind at 1. rewrite (proceed_None _ _ _ _ Hdiscard).
  unfold proceed at 1, bind at 1, collectData.
  step. step.
  change (calibrationPhaseList
            (m_suitsConnector (logged (CInitializeCalibration calibrationType) w1)))
    with (calibrationPhaseList (m_suitsConnector w1)).
  rewrite Hphases. step. step. rewrite followPhases_nil.
  eexists. split; [reflexivity|]. simpl.
  rewrite <- !app_assoc. auto.
Qed.

(* ------------------------------------------------------------------ *)
(** ** The evaluation and what follows it *)

(** The rejecting branch, run to its end or to the end of the fuel. *)
Lemma rejectCalibration_run fuel w :
  m_calibrationInProgress (self w) = true ->
  let w2 := logged CAbortCalibration w in
  (exists n, (n <= fuel)%nat /\
     rejectCalibration fuel w
     = Returned false (with_self (cleanup_members (self (napping n w2))) (napping n w2)) /\
     m_calibrationAborted (self (napping n w2)) = true /\
     forall k, (k < n)%nat -> m_calibrationAborted (self (napping k w2)) = false) \/
  (rejectCalibration fuel w = StillLooping AbortWait (napping fuel w2) /\
   forall k, (k <= fuel)%nat -> m_calibrationAborted (self (napping k w2)) = false).
Proof.
  intros Hp w2.
  assert (Heq : rejectCalibration fuel w
                = (while fuel AbortWait abortPending (sleep_for 10) ;; cleanup ;; ret false) w2).
  { unfold rejectCalibration.
    now rewrite (bind_Returned _ _ _ _ _
                   (abortCalibration_underway w w (conj (same_answers_refl w) Hp))). }
  rewrite Heq.
  destruct (wait_outcome AbortWait _ _ abortPending_reads fuel w2)
    as [(n & Hn & Hrun & Hend & Hbefore)|(Hrun & Hall)];
    [rewrite (bind_Returned _ _ _ _ _ Hrun)|rewrite (bind_StillLooping _ _ _ _ _ Hrun)].
  - left. exists n. repeat split; auto.
    + apply negb_false_iff in Hend. exact Hend.
    + intros k Hk. specialize (Hbefore k Hk).
      apply negb_true_iff in Hbefore. exact Hbefore.
  - right. split; [reflexivity|]. intros k Hk. specialize (Hall k Hk).
    apply negb_true_iff in Hall. exact Hall.
Qed.

(** The accepting branch. *)
Lemma applyCalibration_run fuel calibrationType quality w :
  let w2 := logged CFinalizeCalibration w in
  let pending := fun w => negb (m_operationCompleted (self w))
                          && negb (m_calibrationAborted (self w)) in
  (exists n, (n <= fuel)%nat /\
     pending (napping n w2) = false /\
     (forall k, (k < n)%nat -> pending (napping k w2) = true) /\
     applyCalibration fuel calibrationType quality w
     = if m_calibrationAborted (self (napping n w2))
       then Returned false (with_self (cleanup_members (self (napping n w2))) (napping n w2))
       else Returned true
              (with_self
                 (set_calibrationInProgress false
                    (set_lastCalibration calibrationType (CalibrationQualitiesMap quality)
                       (self (napping n w2))))
                 (napping n w2))) \/
  (applyCalibration fuel calibrationType quality w = StillLooping FinalizeWait (napping fuel w2) /\
   forall k, (k <= fuel)%nat -> pending (napping k w2) = true).
Proof.
  intros w2 pending.
  assert (Heq : applyCalibration fuel calibrationType quality w
                = (while fuel FinalizeWait finalizePending (sleep_for 10) ;;
                   r <- returnFalseIfAborted ;;
                   match r with
                   | Some b => ret b
                   | None => commitCalibration calibrationType quality
                   end) w2).
  { unfold applyCalibration. now step. }
  rewrite Heq.
  destruct (wait_outcome FinalizeWait _ _ finalizePending_reads fuel w2)
    as [(n & Hn & Hrun & Hend & Hbefore)|(Hrun & Hall)];
    [rewrite (bind_Returned _ _ _ _ _ Hrun)|rewrite (bind_StillLooping _ _ _ _ _ Hrun)].
  - left. exists n. repeat split; auto.
    unfold returnFalseIfAborted, bind, member.
    destruct (m_calibrationAborted (self (napping n w2))); reflexivity.
  - right. split; [reflexivity|exact Hall].
Qed.

Lemma evaluateCalibration_branch fuel calibrationType w :
  let w2 := logged (CCalibrationResult calibrationType) w in
  let quality := m_quality (calibrationResult (m_suitsConnector w) calibrationType) in
  evaluateCalibration fuel calibrationType w
  = if quality_lt (CalibrationQualitiesMap quality) (m_minimumAccaptableQuality (self w))
    then rejectCalibration fuel w2
    else applyCalibration fuel calibrationType quality w2.
Proof.
  intros w2 quality. unfold evaluateCalibration. step. step.
  change (self (logged (CCalibrationResult calibrationType) w)) with (self w).
  fold quality. now destruct (quality_lt _ _).
Qed.

(** Where [calibrateWithType] stands when the processing is over. *)
Lemma calibrateWithType_evaluates fuel calibrationType w w1 :
  collectAndProcess fuel calibrationType w = Returned None w1 ->
  let quality := m_quality (calibrationResult (m_suitsConnector w) calibrationType) in
  underway w w1 /\
  m_calibrationAborted (self w1) = false /\
  calibrateWithType fuel calibrationType w
  = if quality_lt (CalibrationQualitiesMap quality) (m_minimumAccaptableQuality (self w))
    then rejectCalibration fuel (logged (CCalibrationResult calibrationType) w1)
    else applyCalibration fuel calibrationType quality
           (logged (CCalibrationResult calibrationType) w1).
Proof.
  intros Hrun quality.
  pose proof (collectAndProcess_post fuel calibrationType w) as Hpost.
  rewrite Hrun in Hpost. destruct Hpost as (Hunder & Hab).
  split; [exact Hunder|]. split; [exact Hab|].
  unfold calibrateWithType. rewrite (bind_Returned _ _ _ _ _ Hrun).
  rewrite evaluateCalibration_branch.
  destruct Hunder as ((Hmin & Hres & _ & _) & _).
  unfold quality. now rewrite Hmin, Hres.
Qed.

(** The rejecting branch returns once the engine has confirmed the abort. *)
Lemma rejectCalibration_returns fuel w t :
  m_calibrationInProgress (self w) = true ->
  (now w <= t < now w + 10 * fuel)%nat ->
  In OnCalibrationAborted (engine w t) ->
  exists w', rejectCalibration fuel w = Returned false w' /\ cleaned w'.
Proof.
  intros Hp Ht Hin.
  destruct (rejectCalibration_run fuel w Hp) as [(n & _ & Hrun & _)|(_ & Hall)].
  - eexists. split; [exact Hrun|reflexivity].
  - specialize (Hall fuel (Nat.le_refl _)).
    apply napping_not_aborted in Hall. destruct Hall as (_ & Hnone).
    exfalso. apply (Hnone t); assumption.
Qed.

(** The accepting branch returns true once the engine has signalled the
    completion, if it has not signalled an abort meanwhile. *)
Lemma applyCalibration_returns fuel calibrationType quality w n :
  (n <= fuel)%nat ->
  m_calibrationAborted (self w) = false ->
  (m_operationCompleted (self w) = true \/
   exists t, (now w <= t < now w + 10 * n)%nat /\ In OnCalibrationComplete (engine w t)) ->
  (forall t, (now w <= t < now w + 10 * n)%nat -> ~ In OnCalibrationAborted (engine w t)) ->
  exists w',
    applyCalibration fuel calibrationType quality w = Returned true w' /\
    committed calibrationType (CalibrationQualitiesMap quality) w' /\
    m_operationCompleted (self w') = true /\
    calls w' = calls w ++ [CFinalizeCalibration].
Proof.
  intros Hn Hab Hcomplete Hnoabort.
  assert (Hdone : m_operationCompleted
                    (self (napping n (logged CFinalizeCalibration w))) = true).
  { apply napping_completed. exact Hcomplete. }
  destruct (applyCalibration_run fuel calibrationType quality w)
    as [(m & Hm & Hend & Hbefore & Hrun)|(_ & Hall)];
    set (w2 := logged CFinalizeCalibration w) in *.
  - assert (Hmn : (m <= n)%nat).
    { destruct (Nat.le_gt_cases m n) as [H|H]; auto.
      specialize (Hbefore n H). simpl in Hbefore. rewrite Hdone in Hbefore. discriminate. }
    assert (Hclear : m_calibrationAborted (self (napping m w2)) = false).
    { apply napping_not_aborted. split; [exact Hab|].
      intros t Ht. apply Hnoabort. simpl in Ht. lia. }
    rewrite Hclear in Hrun, Hend. rewrite andb_true_r in Hend.
    apply negb_false_iff in Hend.
    eexists. split; [exact Hrun|]. simpl.
    repeat split; auto. apply napping_calls.
  - specialize (Hall n Hn). simpl in Hall. rewrite Hdone in Hall. discriminate.
Qed.

Lemma evaluateCalibration_post w0 fuel calibrationType w :
  underway w0 w ->
  let achieved := CalibrationQualitiesMap
                    (m_quality (calibrationResult (m_suitsConnector w0) calibrationType)) in
  let minimum := m_minimumAccaptableQuality (self w0) in
  satisfies (fun (b : bool) w' =>
               if b then committed calibrationType achieved w' /\
                         quality_lt achieved minimum = false
               else cleaned w')
            spinning (evaluateCalibration fuel calibrationType w).
Proof.
  intros H achieved minimum. rewrite evaluateCalibration_branch.
  destruct H as (Hs & Hp). pose proof Hs as (Hmin & Hres & _ & _).
  rewrite Hmin, Hres. fold achieved minimum.
  assert (H2 : underway w0 (logged (CCalibrationResult calibrationType) w))
    by (split; assumption).
  destruct (quality_lt achieved minimum) eqn:Hlt.
  - eapply satisfies_weaken; [apply (rejectCalibration_post w0 _ _ H2)| |auto].
    intros b w' (-> & Hc). exact Hc.
  - eapply satisfies_weaken; [apply (applyCalibration_post w0 _ _ _ _ H2)| |auto].
    intros [|] w' Hc; auto.
Qed.

Lemma calibrateWithType_post fuel calibrationType w :
  let achieved := CalibrationQualitiesMap
                    (m_quality (calibrationResult (m_suitsConnector w) calibrationType)) in
  let minimum := m_minimumAccaptableQuality (self w) in
  satisfies (fun (b : bool) w' =>
               if b then committed calibrationType achieved w' /\
                         quality_lt achieved minimum = false
               else cleaned w')
            spinning (calibrateWithType fuel calibrationType w).
Proof.
  intros achieved minimum. unfold calibrateWithType. apply satisfies_bind.
  eapply satisfies_weaken; [apply collectAndProcess_post| |auto].
  intros [b|] w1; simpl.
  - intros (-> & Hc). exact Hc.
  - intros (H1 & _). now apply evaluateCalibration_post.
Qed.

Lemma rejectCalibration_path fuel w :
  m_calibrationInProgress (self w) = true ->
  calls (world_of (rejectCalibration fuel w)) = calls w ++ [CAbortCalibration] /\
  satisfies (fun b w' => b = false /\ cleaned w')
            (fun l w' => l = AbortWait /\ m_calibrationAborted (self w') = false)
            (rejectCalibration fuel w) /\
  (forall f w', rejectCalibration fuel w <> Undefined f w').
Proof.
  intros Hp.
  destruct (rejectCalibration_run fuel w Hp) as [(n & _ & -> & _)|(-> & Hall)]; simpl.
  - rewrite napping_calls. repeat split. intros; discriminate.
  - rewrite napping_calls. repeat split; auto. intros; discriminate.
Qed.

Lemma applyCalibration_path fuel calibrationType quality w :
  calls (world_of (applyCalibration fuel calibrationType quality w))
  = calls w ++ [CFinalizeCalibration] /\
  satisfies (fun (b : bool) w' =>
               if b then committed calibrationType (CalibrationQualitiesMap quality) w'
               else cleaned w')
            (fun l w' => l = FinalizeWait /\
                         m_operationCompleted (self w') = false /\
                         m_calibrationAborted (self w') = false)
            (applyCalibration fuel calibrationType quality w) /\
  (forall f w', applyCalibration fuel calibrationType quality w <> Undefined f w').
Proof.
  destruct (applyCalibration_run fuel calibrationType quality w)
    as [(n & _ & Hend & _ & ->)|(-> & Hall)].
  - destruct (m_calibrationAborted (self (napping n (logged CFinalizeCalibration w))))
      eqn:Hab; simpl; rewrite napping_calls; repeat split; auto;
      intros; discriminate.
  - simpl. rewrite napping_calls. specialize (Hall fuel (Nat.le_refl _)).
    apply andb_true_iff in Hall. destruct Hall as (H1 & H2).
    apply negb_true_iff in H1, H2. repeat split; auto. intros; discriminate.
Qed.

(* ------------------------------------------------------------------ *)
(** ** The quality policy *)

(** C1. Let the processing be over, with achieved quality Q, the grade the
    handle reported under the same name, and threshold T.
    If Q < T, [calibrateWithType] fetches the result and sends the abort
    command, waits for the aborted flag, runs [cleanup] and returns false:
    it returns nothing else, it waits in no other loop, it returns as soon
    as the engine has confirmed the abort, and not before: a run that
    returns does so at the first of its polls, 10 ms apart, by which the
    engine has signalled the abort, and without that signal the run is still
    waiting.  If Q >= T, it fetches the result and sends the finalize
    command instead, and returns true once the engine has signalled the
    completion without signalling an abort; it returns true only with
    [m_operationCompleted] raised, and false only after an abort signalled
    by the engine. *)
Theorem quality_policy (fuel : nat) (calibrationType : string) (w w1 : World) :
  collectAndProcess fuel calibrationType w = Returned None w1 ->
  let reported := m_quality (calibrationResult (m_suitsConnector w) calibrationType) in
  let achieved := CalibrationQualitiesMap reported in
  let minimum := m_minimumAccaptableQuality (self w) in
  let o := calibrateWithType fuel calibrationType w in
  let aborts_within := fun n : nat =>
    exists t, (now w1 <= t < now w1 + 10 * n)%nat /\ In OnCalibrationAborted (engine w t) in
  match reported with
  | XCalQ_Unknown => achieved = UNKNOWN
  | XCalQ_Failed => achieved = FAILED
  | XCalQ_Poor => achieved = POOR
  | XCalQ_Acceptable => achieved = ACCEPTABLE
  | XCalQ_Good => achieved = GOOD
  end /\
  (underlying achieved < underlying minimum ->
     calls (world_of o)
       = calls w1 ++ [CCalibrationResult calibrationType; CAbortCalibration] /\
     satisfies (fun b w' => b = false /\ cleaned w')
               (fun l w' => l = AbortWait /\ m_calibrationAborted (self w') = false) o /\
     (forall f w', o <> Undefined f w') /\
     (forall t, (now w1 <= t < now w1 + 10 * fuel)%nat ->
                In OnCalibrationAborted (engine w t) ->
                exists w', o = Returned false w' /\ cleaned w') /\
     (forall b w', o = Returned b w' ->
        exists n, (0 < n <= fuel)%nat /\
          let polled := napping n (logged CAbortCalibration
                                     (logged (CCalibrationResult calibrationType) w1)) in
          m_calibrationAborted (self polled) = true /\
          w' = with_self (cleanup_members (self polled)) polled /\
          now w' = (now w1 + 10 * n)%nat /\
          aborts_within n /\ ~ aborts_within (n - 1)%nat) /\
     (~ aborts_within fuel ->
        exists w', o = StillLooping AbortWait w' /\
                   now w' = (now w1 + 10 * fuel)%nat)) /\
  (underlying minimum <= underlying achieved ->
     calls (world_of o)
       = calls w1 ++ [CCalibrationResult calibrationType; CFinalizeCalibration] /\
     satisfies (fun (b : bool) w' =>
                  if b then committed calibrationType achieved w' else cleaned w')
               (fun l w' => l = FinalizeWait /\
                            m_operationCompleted (self w') = false /\
                            m_calibrationAborted (self w') = false) o /\
     (forall f w', o <> Undefined f w') /\
     (forall n, (n <= fuel)%nat ->
        (m_operationCompleted (self w1) = true \/
         exists t, (now w1 <= t < now w1 + 10 * n)%nat /\
                   In OnCalibrationComplete (engine w t)) ->
        (forall t, (now w1 <= t < now w1 + 10 * n)%nat ->
                   ~ In OnCalibrationAborted (engine w t)) ->
        exists w', o = Returned true w' /\ committed calibrationType achieved w') /\
     (forall w', o = Returned true w' -> m_operationCompleted (self w') = true) /\
     (forall w', o = Returned false w' ->
        exists t, (now w1 <= t < now w')%nat /\ In OnCalibrationAborted (engine w t))).
Proof.
  intros Hrun reported achieved minimum o aborts_within.
  destruct (calibrateWithType_evaluates _ _ _ _ Hrun) as (Hunder & Hab & Heq).
  fold reported achieved minimum o in Heq.
  destruct Hunder as ((_ & _ & _ & Hengine) & Hp).
  set (w2 := logged (CCalibrationResult calibrationType) w1) in *.
  split; [unfold achieved; destruct reported; reflexivity|].
  split; intros Hcmp.
  - assert (Hlt : quality_lt achieved minimum = true) by (now apply Z.ltb_lt).
    rewrite Hlt in Heq. rewrite Heq.
    destruct (rejectCalibration_path fuel w2 Hp) as (Hcalls & Hsat & Hdef).
    split; [|split; [exact Hsat|split; [exact Hdef|split; [|split]]]].
    + rewrite Hcalls. unfold w2. simpl. now rewrite <- app_assoc.
    + intros t Ht Hin. apply (rejectCalibration_returns fuel w2 t Hp Ht).
      change (engine w2) with (engine w1). now rewrite Hengine.
    + intros b w' Hret.
      destruct (rejectCalibration_run fuel w2 Hp) as [(n & Hn & Hrej & Hend & Hbefore)|(Hrej & _)];
        [|rewrite Hrej in Hret; discriminate].
      rewrite Hrej in Hret. inversion Hret; subst b w'; clear Hret.
      assert (Hpos : (0 < n)%nat).
      { destruct n; [|lia]. simpl in Hend. rewrite Hab in Hend. discriminate. }
      exists n. split; [lia|]. split; [exact Hend|]. split; [reflexivity|]. split.
      { change (now (napping n (logged CAbortCalibration w2)) = (now w1 + 10 * n)%nat).
        now rewrite napping_now. }
      split.
      * apply napping_aborted in Hend. destruct Hend as [Hend|Hend].
        { simpl in Hend. rewrite Hab in Hend. discriminate. }
        { simpl in Hend. rewrite Hengine in Hend. exact Hend. }
      * intros (t & Ht & Hin).
        assert (Hk := Hbefore (n - 1)%nat ltac:(lia)).
        apply napping_not_aborted in Hk. destruct Hk as (_ & Hk).
        apply (Hk t); [exact Ht|]. simpl. now rewrite Hengine.
    + intros Hnone.
      destruct (rejectCalibration_run fuel w2 Hp) as [(n & Hn & Hrej & Hend & _)|(Hrej & _)].
      * exfalso. apply Hnone.
        apply napping_aborted in Hend. destruct Hend as [Hend|(t & Ht & Hin)].
        { simpl in Hend. rewrite Hab in Hend. discriminate. }
        { exists t. simpl in Ht, Hin. rewrite Hengine in Hin. split; [lia|exact Hin]. }
      * eexists. split; [exact Hrej|]. now rewrite napping_now.
  - assert (Hge : quality_lt achieved minimum = false) by (apply Z.ltb_ge; lia).
    rewrite Hge in Heq. rewrite Heq.
    destruct (applyCalibration_path fuel calibrationType reported w2)
      as (Hcalls & Hsat & Hdef).
    split; [|split; [exact Hsat|split; [exact Hdef|split; [|split]]]].
    + rewrite Hcalls. unfold w2. simpl. now rewrite <- app_assoc.
    + intros n Hn Hcomplete Hnoabort.
      destruct (applyCalibration_returns fuel calibrationType reported
                  w2 n Hn Hab) as (w' & Hret & Hcommitted & _).
      * change (engine w2) with (engine w1). rewrite Hengine. exact Hcomplete.
      * change (engine w2) with (engine w1). rewrite Hengine. exact Hnoabort.
      * exists w'. split; assumption.
    + intros w' Hret.
      destruct (applyCalibration_run fuel calibrationType reported w2)
        as [(n & _ & Hend & _ & Happ)|(Happ & _)];
        [|rewrite Happ in Hret; discriminate].
      rewrite Happ in Hret.
      destruct (m_calibrationAborted (self (napping n (logged CFinalizeCalibration w2))))
        eqn:Hflag; [discriminate|].
      inversion Hret; subst w'; clear Hret.
      cbv beta in Hend. rewrite andb_true_r in Hend.
      apply negb_false_iff in Hend. exact Hend.
    + intros w' Hret.
      destruct (applyCalibration_run fuel calibrationType reported w2)
        as [(n & _ & Hend & _ & Happ)|(Happ & _)];
        [|rewrite Happ in Hret; discriminate].
      rewrite Happ in Hret.
      destruct (m_calibrationAborted (self (napping n (logged CFinalizeCalibration w2))))
        eqn:Hflag; [|discriminate].
      inversion Hret; subst w'; clear Hret.
      apply napping_aborted in Hflag. destruct Hflag as [Hflag|(t & Ht & Hin)].
      * simpl in Hflag. rewrite Hab in Hflag. discriminate.
      * exists t. simpl in Ht, Hin. rewrite Hengine in Hin. split; [|exact Hin].
        change (now w1 <= t < now (napping n (logged CFinalizeCalibration w2)))%nat.
        rewrite napping_now. simpl. lia.
Qed.

(** C5. Whenever [calibrateWithType] returns true, the used calibration
    type is the requested one, the achieved quality is the grade the handle
    reported (Unknown for Unknown, Failed for Failed, Poor for Poor,
    Acceptable for Acceptable, Good for Good), which is the entry of
    [CalibrationQualitiesMap] for it, the in-progress flag is false, and
    the recorded quality is not below the threshold.  And it does return
    true when, the processing being over with a quality that meets the
    threshold, the engine signals the completion of the finalisation
    without signalling an abort. *)
Theorem accepted_calibration_is_recorded (fuel : nat) (calibrationType : string) (w : World) :
  let reported := m_quality (calibrationResult (m_suitsConnector w) calibrationType) in
  let achieved := CalibrationQualitiesMap reported in
  let minimum := m_minimumAccaptableQuality (self w) in
  let recorded := fun w' : World =>
    m_usedCalibrationType (self w') = calibrationType /\
    match reported with
    | XCalQ_Unknown => m_achievedCalibrationQuality (self w') = UNKNOWN
    | XCalQ_Failed => m_achievedCalibrationQuality (self w') = FAILED
    | XCalQ_Poor => m_achievedCalibrationQuality (self w') = POOR
    | XCalQ_Acceptable => m_achievedCalibrationQuality (self w') = ACCEPTABLE
    | XCalQ_Good => m_achievedCalibrationQuality (self w') = GOOD
    end /\
    m_achievedCalibrationQuality (self w') = achieved /\
    m_calibrationInProgress (self w') = false /\
    underlying minimum <= underlying (m_achievedCalibrationQuality (self w')) in
  (forall w', calibrateWithType fuel calibrationType w = Returned true w' ->
     recorded w') /\
  (forall w1 n,
     collectAndProcess fuel calibrationType w = Returned None w1 ->
     underlying minimum <= underlying achieved ->
     (n <= fuel)%nat ->
     (m_operationCompleted (self w1) = true \/
      exists t, (now w1 <= t < now w1 + 10 * n)%nat /\
                In OnCalibrationComplete (engine w t)) ->
     (forall t, (now w1 <= t < now w1 + 10 * n)%nat ->
                ~ In OnCalibrationAborted (engine w t)) ->
     exists w', calibrateWithType fuel calibrationType w = Returned true w' /\
       recorded w').
Proof.
  intros reported achieved minimum recorded.
  assert (Hrecorded : forall w',
            calibrateWithType fuel calibrationType w = Returned true w' -> recorded w').
  { intros w' Hret.
    pose proof (calibrateWithType_post fuel calibrationType w) as Hpost.
    rewrite Hret in Hpost. simpl in Hpost.
    destruct Hpost as ((Hused & Hach & Hp & _) & Hge).
    fold reported achieved minimum in Hach, Hge.
    unfold recorded. rewrite Hach.
    split; [exact Hused|]. split; [unfold achieved; destruct reported; reflexivity|].
    split; [reflexivity|]. split; [exact Hp|]. apply Z.ltb_ge. exact Hge. }
  split; [exact Hrecorded|].
  intros w1 n Hrun Hcmp Hn Hcomplete Hnoabort.
  destruct (calibrateWithType_evaluates _ _ _ _ Hrun) as (Hunder & Hab & Heq).
  fold reported achieved minimum in Heq.
  destruct Hunder as ((_ & _ & _ & Hengine) & _).
  assert (Hge : quality_lt achieved minimum = false) by (apply Z.ltb_ge; lia).
  rewrite Hge in Heq.
  destruct (applyCalibration_returns fuel calibrationType reported
              (logged (CCalibrationResult calibrationType) w1) n Hn Hab)
    as (w' & Hret & _).
  - simpl. rewrite Hengine. exact Hcomplete.
  - simpl. rewrite Hengine. exact Hnoabort.
  - rewrite <- Heq in Hret. exists w'. split; [exact Hret|].
    apply Hrecorded. exact Hret.
Qed.

(* ------------------------------------------------------------------ *)
(** ** Aborts during the waits *)





Lemma playFrames_eq fuel startingFrame endingFrame w :
  playFrames fuel startingFrame endingFrame w
  = if (startingFrame <? endingFrame) && negb (m_calibrationAborted (self w))
    then match fuel with
         | O => StillLooping FrameLoop w
         | S fuel' => playFrames fuel' (startingFrame + 1) endingFrame
                        (asleep 16 (logged (CCalibrationPose startingFrame) w))
         end
    else Returned tt w.
Proof.
  destruct fuel; simpl; unfold framePending, bind, member, ret;
    destruct (startingFrame <? endingFrame);
    destruct (m_calibrationAborted (self w)); reflexivity.
Qed.




(* ------------------------------------------------------------------ *)
(** ** Scenarios *)

Example npose_good_is_accepted :
  exists w',
    calibrateWithType 10 "Npose"
      (npose XCalQ_Good (at_times [(3425%nat, OnCalibrationProcessed)]))
    = Returned true w' /\
    m_usedCalibrationType (self w') = "Npose" /\
    m_achievedCalibrationQuality (self w') = GOOD.
Proof.
  eexists. split; [apply result_of_Some; vm_compute; reflexivity|].
  split; vm_compute; reflexivity.
Qed.

(** The 25 pairs of a reported quality and a threshold on the end-to-end
    scenario: the run returns true exactly when the quality is not below the
    threshold. *)
Example npose_on_every_pair (quality : XmeCalibrationQuality) (minimum : CalibrationQuality) :
  result_of
    (calibrateWithType 10 "Npose"
       (world (construct minimum) (suit [] [] [0; 10; 20] quality)
              (at_times [(3425%nat, OnCalibrationProcessed);
                         (3445%nat, OnCalibrationAborted)])))
  = Some (negb (quality_lt (CalibrationQualitiesMap quality) minimum)).
Proof.
  destruct quality, minimum; vm_compute; reflexivity.
Qed.

Example npose_poor_is_rejected :
  exists w',
    calibrateWithType 10 "Npose"
      (npose XCalQ_Poor (at_times [(3425%nat, OnCalibrationProcessed);
                                   (3445%nat, OnCalibrationAborted)]))
    = Returned false w' /\
    self w' = cleanup_members (construct ACCEPTABLE) /\
    In CAbortCalibration (calls w').
Proof.
  eexists. split; [apply result_of_Some; vm_compute; reflexivity|].
  split; [vm_compute; reflexivity|].
  vm_compute. tauto.
Qed.

(* ------------------------------------------------------------------ *)
(** ** Instances *)

Lemma In_at_times events t e : In e (at_times events t) <-> In (t, e) events.
Proof.
  unfold at_times. rewrite in_map_iff. split.
  - intros ((t', e') & Heq & Hin). apply filter_In in Hin.
    destruct Hin as (Hin & Ht). simpl in *. apply Nat.eqb_eq in Ht. now subst.
  - intros Hin. exists (t, e). split; auto. apply filter_In. split; auto.
    simpl. apply Nat.eqb_refl.
Qed.

(** The quality policy on the rejected end-to-end scenario: quality Poor,
    threshold Acceptable, the abort confirmed 25 ms after the evaluation. *)
Lemma quality_policy_witness :
  exists w',
    calibrateWithType 10 "Npose"
      (npose XCalQ_Poor (at_times [(3425%nat, OnCalibrationProcessed);
                                   (3445%nat, OnCalibrationAborted)]))
    = Returned false w' /\ cleaned w'.
Proof.
  set (w := npose XCalQ_Poor (at_times [(3425%nat, OnCalibrationProcessed);
                                        (3445%nat, OnCalibrationAborted)])).
  assert (Hrun : collectAndProcess 10 "Npose" w
                 = Returned None (world_of (collectAndProcess 10 "Npose" w)))
    by (apply result_of_Some; vm_compute; reflexivity).
  destruct (quality_policy 10 "Npose" w _ Hrun) as (_ & Hreject & _).
  destruct Hreject as (_ & _ & _ & Hreturns & _); [vm_compute; reflexivity|].
  apply (Hreturns 3445%nat).
  - split; [apply Nat.leb_le|apply Nat.ltb_lt]; vm_compute; reflexivity.
  - vm_compute. tauto.
Defined.

(** An accepted calibration after the discard of a previous one: the
    discard is over after 15 ms, the processing after 3425 ms, and the
    finalisation is complete 22 ms after it was asked for. *)
Lemma accepted_calibration_is_recorded_witness :
  exists w',
    calibrateWithType 10 "Npose"
      (npose_again XCalQ_Good
         (at_times [(15%nat, CalibrationCleared "Npose");
                    (3445%nat, OnCalibrationProcessed);
                    (3472%nat, OnCalibrationComplete)]))
    = Returned true w' /\
    m_usedCalibrationType (self w') = "Npose" /\
    m_achievedCalibrationQuality (self w') = GOOD /\
    m_calibrationInProgress (self w') = false.
Proof.
  set (w := npose_again XCalQ_Good
              (at_times [(15%nat, CalibrationCleared "Npose");
                         (3445%nat, OnCalibrationProcessed);
                         (3472%nat, OnCalibrationComplete)])).
  assert (Hrun : collectAndProcess 10 "Npose" w
                 = Returned None (world_of (collectAndProcess 10 "Npose" w)))
    by (apply result_of_Some; vm_compute; reflexivity).
  destruct (accepted_calibration_is_recorded 10 "Npose" w) as (_ & Haccepts).
  destruct (Haccepts _ 3%nat Hrun) as (w' & Hret & Hused & Hgrade & _ & Hp & _).
  - vm_compute. discriminate.
  - lia.
  - right. exists 3472%nat. split.
    + split; [apply Nat.leb_le|apply Nat.ltb_lt]; vm_compute; reflexivity.
    + vm_compute. tauto.
  - intros t _ Hin. apply In_at_times in Hin.
    destruct Hin as [H|[H|[H|[]]]]; discriminate H.
  - exists w'. split; [exact Hret|]. split; [exact Hused|]. split; [exact Hgrade|exact Hp].
Defined.

(** An engine that reports no phase at all. *)
Lemma empty_phase_list_underflows_witness :
  exists w',
    calibrateWithType 1 "Npose" (world (construct ACCEPTABLE) (suit [] [] [] XCalQ_Good) quiet)
    = Undefined IndexOutOfRange w' /\
    now w' = 3000%nat.
Proof.
  set (w := world (construct ACCEPTABLE) (suit [] [] [] XCalQ_Good) quiet).
  assert (Hrun : discardPrevious 1 "Npose" w
                 = Returned None (world_of (discardPrevious 1 "Npose" w)))
    by reflexivity.
  destruct (empty_phase_list_underflows 0 "Npose" w _ eq_refl Hrun)
    as (_ & _ & w' & Hundefined & _ & Hnow).
  exists w'. split; [exact Hundefined|exact Hnow].
Defined.

(** A map whose only label the suit does not know, and a silent engine. *)
Lemma setBodyDimensions_unknown_labels_never_complete_witness :
  exists w',
    setBodyDimensions 50 [("hipWidth", 1 # 4)] (world (construct GOOD) ankle_suit quiet)
    = StillLooping BodyDimensionsWait w' /\
    m_operationCompleted (self w') = false /\
    calls w' = [CStatus; CBodyDimensionLabelList] /\
    now w' = 500%nat.
Proof.
  apply (setBodyDimensions_unknown_labels_never_complete
           50 [("hipWidth", 1 # 4)] (world (construct GOOD) ankle_suit quiet)).
  - reflexivity.
  - reflexivity.
  - discriminate.
  - intros entry [<-|[]]. reflexivity.
  - intros t _ [].
Defined.

(** An unplugged suit fails fast; a map with one unknown and one known
    label has the known one applied and completes at the second poll, the
    engine having signalled the completion after 12 ms. *)
Lemma setBodyDimensions_contract_witness :
  (exists w' queries,
     setBodyDimensions 5 [("ankleHeight", 1 # 10)] (world (construct GOOD) unplugged quiet)
     = Returned false w' /\
     self w' = construct GOOD /\
     now w' = 0%nat /\
     calls w' = [] ++ queries /\
     queries = [CStatus] /\
     existsb is_command queries = false) /\
  (exists w' m,
     (0 < m <= 2)%nat /\
     setBodyDimensions 5 [("ankleHeight", 1 # 10); ("hipWidth", 1 # 4)]
       (world (construct GOOD) ankle_suit (at_times [(12%nat, OnCalibrationComplete)]))
     = Returned true w' /\
     m_operationCompleted (self w') = true /\
     calls w' = [CStatus; CBodyDimensionLabelList; CSetBodyDimension "ankleHeight" (1 # 10)] /\
     now w' = (0 + 10 * m)%nat).
Proof.
  split.
  - apply (setBodyDimensions_contract
             5 [("ankleHeight", 1 # 10)] (world (construct GOOD) unplugged quiet)).
    left. reflexivity.
  - destruct (setBodyDimensions_contract
                5 [("ankleHeight", 1 # 10); ("hipWidth", 1 # 4)]
                (world (construct GOOD) ankle_suit
                       (at_times [(12%nat, OnCalibrationComplete)])))
      as (_ & Hwaits).
    destruct (Hwaits eq_refl eq_refl) as (_ & Hreturns & _); [discriminate|].
    destruct (Hreturns 2%nat) as (w' & m & Hm & Hrun & Hdone & Hcalls & Hnow & _).
    + lia.
    + exists 12%nat. split; [simpl; lia|]. apply In_at_times. left. reflexivity.
    + exists w', m. repeat split; try assumption; lia.
Defined.


Example getBodyDimension_of_a_known_body :
  exists w',
    getBodyDimension "ankleHeight" 0%Q (world (construct GOOD) measured_suit quiet)
    = Returned (false, 0%Q) w'.
Proof. eexists. vm_compute. reflexivity. Qed.

Example getBodyDimension_of_an_unknown_body :
  exists w',
    getBodyDimension "hipWidth" 0%Q (world (construct GOOD) measured_suit quiet)
    = Undefined EndIteratorDereference w'.
Proof. eexists. vm_compute. reflexivity. Qed.

(* ------------------------------------------------------------------ *)
(** ** Counterexamples *)


(** C6, as stated, fails on the calls: when the suit is not connected
    [setBodyDimensions] has called [status()] on the handle, and with an
    empty map it has called [status()] and [bodyDimensionLabelList()]. *)
Lemma setBodyDimensions_queries_before_failing :
  (exists w',
     setBodyDimensions 5 [("ankleHeight", 1 # 10)] (world (construct GOOD) unplugged quiet)
     = Returned false w' /\
     calls w' = [CStatus]) /\
  (exists w',
     setBodyDimensions 5 [] (world (construct GOOD) ankle_suit quiet)
     = Returned false w' /\
     calls w' = [CStatus; CBodyDimensionLabelList]).
Proof.
  split; eexists; (split; [vm_compute; reflexivity|reflexivity]).
Qed.

(* ================================================================== *)
(** * Further properties of the calibrator *)

(* ------------------------------------------------------------------ *)
(** ** Invariants of a run *)

Lemma keeps_bind {A B} (m : M A) (k : A -> M B) R I w :
  keeps (fun a w1 => keeps R I (k a w1)) I (m w) ->
  keeps R I (bind m k w).
Proof. unfold bind. destruct (m w); simpl; auto. Qed.

Lemma keeps_weaken {A} (R R' : A -> World -> Prop) (I : World -> Prop) o :
  keeps R I o -> (forall a w, R a w -> R' a w) -> keeps R' I o.
Proof. destruct o; simpl; auto. Qed.

Lemma keeps_while (I : World -> Prop) l cond body :
  (forall w, I w -> keeps (fun _ w1 => I w1) I (cond w)) ->
  (forall w, I w -> keeps (fun _ w1 => I w1) I (body w)) ->
  forall fuel w, I w -> keeps (fun _ w1 => I w1) I (while fuel l cond body w).
Proof.
  intros Hcond Hbody.
  induction fuel as [|fuel IH]; intros w Hw; simpl;
    apply keeps_bind; specialize (Hcond w Hw);
    destruct (cond w) as [b w1| |]; simpl in *; auto;
    destruct b; simpl; auto.
  apply keeps_bind. specialize (Hbody w1 Hcond).
  destruct (body w1); simpl in *; auto.
Qed.

Lemma keeps_proceed {A} (m k : M (option A)) R I w :
  keeps (fun r w1 => match r with
                     | Some b => R (Some b) w1
                     | None => keeps R I (k w1)
                     end) I (m w) ->
  keeps R I (proceed m k w).
Proof.
  intros H. unfold proceed. apply keeps_bind.
  eapply keeps_weaken; [exact H|].
  intros [b|] w1; simpl; auto.
Qed.

Section Keeps.

(** [I] holds while the calibration runs, [F] once it has returned; [P]
    holds of the calls it may make. *)
Variables I F : World -> Prop.
Variable P : Call -> Prop.

Hypothesis I_asleep : forall d w, I w -> I (asleep d w).
Hypothesis I_logged : forall c w, P c -> I w -> I (logged c w).
Hypothesis I_forget : forall w,
  I w -> I (with_self (set_lastCalibration EmptyString UNKNOWN (self w)) w).
Hypothesis I_lower_completed : forall w,
  I w -> I (with_self (set_operationCompleted false (self w)) w).
Hypothesis I_lower_processed : forall w,
  I w -> I (with_self (set_calibrationProcessed false (self w)) w).
Hypothesis I_cleanup : forall w,
  I w -> F (with_self (cleanup_members (self w)) w).
Hypothesis I_commit : forall t q w,
  I w -> F (with_self (set_calibrationInProgress false
                         (set_lastCalibration t q (self w))) w).
Hypothesis P_collecting : forall c, collecting c = true -> P c.
Hypothesis P_result : forall t, P (CCalibrationResult t).
Hypothesis P_abort : P CAbortCalibration.
Hypothesis P_finalize : P CFinalizeCalibration.

Lemma returnFalseIfAborted_keeps w :
  I w -> keeps (stage_keeps I F) I (returnFalseIfAborted w).
Proof.
  intros H. unfold returnFalseIfAborted, bind, member.
  destruct (m_calibrationAborted (self w)); simpl; auto.
Qed.

Lemma discardPrevious_keeps fuel calibrationType w :
  I (with_self (set_calibrationInProgress true (self w)) w) ->
  keeps (stage_keeps I F) I (discardPrevious fuel calibrationType w).
Proof.
  intros H. unfold discardPrevious.
  apply keeps_bind; simpl. apply keeps_bind; simpl.
  apply keeps_bind.
  match goal with
  | |- keeps _ _ (?m ?w1) =>
      assert (Hm : exists w2, m w1 = Returned tt w2 /\ I w2)
  end.
  { destruct (existsb _ _); simpl; eexists; (split; [reflexivity|]).
    - apply I_logged; [apply P_collecting; reflexivity|].
      apply I_lower_completed, I_forget, I_logged; [apply P_collecting; reflexivity|].
      exact H.
    - apply I_logged; [apply P_collecting; reflexivity|]. exact H. }
  destruct Hm as (w2 & -> & Hw2). simpl.
  apply keeps_bind.
  eapply keeps_weaken.
  - apply (keeps_while I); [| |exact Hw2].
    + intros w3 H3. unfold discardPending, isCalibrationPerformed, bind, invoke, member, ret.
      destruct (existsb _ _); simpl;
        apply I_logged; auto; apply P_collecting; reflexivity.
    + intros w3 H3. simpl. now apply I_asleep.
  - simpl. intros _ w3 H3. now apply returnFalseIfAborted_keeps.
Qed.

Lemma playFrames_keeps fuel : forall startingFrame endingFrame w,
  I w -> keeps (fun _ w1 => I w1) I (playFrames fuel startingFrame endingFrame w).
Proof.
  induction fuel as [|fuel IH]; intros s e w H; simpl;
    unfold framePending, bind, member, ret;
    destruct (s <? e); simpl; auto;
    destruct (m_calibrationAborted (self w)); simpl; auto.
Qed.

Lemma followPhases_keeps frames calibPhases fuel : forall phase w,
  I w -> keeps (stage_keeps I F) I (followPhases fuel frames calibPhases phase w).
Proof.
  induction fuel as [|fuel IH]; intros phase w H; simpl;
    destruct (phase <? size_minus_one calibPhases); simpl; auto.
  apply keeps_bind. unfold XsArray_at.
  destruct (nth_error calibPhases (Z.to_nat phase)); simpl; auto.
  apply keeps_bind.
  destruct (nth_error calibPhases _); simpl; auto.
  apply keeps_bind; simpl. apply keeps_bind.
  eapply keeps_weaken.
  - apply playFrames_keeps. apply I_logged; auto.
  - simpl. intros _ w1 H1. apply keeps_proceed.
    eapply keeps_weaken; [apply (returnFalseIfAborted_keeps w1 H1)|].
    intros [b|] w2; simpl; auto.
Qed.

Lemma collectData_keeps fuel calibrationType w :
  I w -> keeps (stage_keeps I F) I (collectData fuel calibrationType w).
Proof.
  intros H. unfold collectData.
  apply keeps_bind; simpl. apply keeps_bind; simpl.
  apply keeps_bind; simpl. apply keeps_bind; simpl.
  apply followPhases_keeps.
  apply I_logged; [apply P_collecting; reflexivity|]. apply I_asleep.
  apply I_logged; [apply P_collecting; reflexivity|].
  apply I_logged; [apply P_collecting; reflexivity|]. exact H.
Qed.

Lemma processData_keeps fuel w :
  I w -> keeps (stage_keeps I F) I (processData fuel w).
Proof.
  intros H. unfold processData.
  apply keeps_bind; simpl. apply keeps_bind; simpl.
  apply keeps_bind; simpl. apply keeps_bind.
  eapply keeps_weaken.
  - apply (keeps_while I).
    + intros w3 H3. unfold processingPending, bind, member, ret.
      destruct (m_calibrationProcessed (self w3)); simpl; auto.
    + intros w3 H3. simpl. now apply I_asleep.
    + apply I_asleep, (I_lower_processed (logged CStopCalibration w)), I_logged; auto.
  - simpl. intros _ w3 H3. now apply returnFalseIfAborted_keeps.
Qed.

Lemma collectAndProcess_keeps fuel calibrationType w :
  I (with_self (set_calibrationInProgress true (self w)) w) ->
  keeps (stage_keeps I F) I (collectAndProcess fuel calibrationType w).
Proof.
  intros H. unfold collectAndProcess. apply keeps_proceed.
  eapply keeps_weaken; [apply discardPrevious_keeps; exact H|].
  intros [b|] w1; simpl; auto. intros H1.
  apply keeps_proceed.
  eapply keeps_weaken; [apply (collectData_keeps _ _ _ H1)|].
  intros [b|] w2; simpl; auto. intros H2.
  apply processData_keeps. exact H2.
Qed.

Lemma rejectCalibration_keeps fuel w :
  I w -> keeps (fun _ w1 => F w1) I (rejectCalibration fuel w).
Proof.
  intros H. unfold rejectCalibration. apply keeps_bind.
  assert (Ha : exists b w1, abortCalibration w = Returned b w1 /\ I w1).
  { unfold abortCalibration, bind, member.
    destruct (m_calibrationInProgress (self w)); simpl; eauto. }
  destruct Ha as (b & w1 & -> & H1). simpl.
  apply keeps_bind.
  eapply keeps_weaken.
  - apply (keeps_while I); [| |exact H1].
    + intros w3 H3. unfold abortPending, bind, member, ret. simpl. exact H3.
    + intros w3 H3. simpl. now apply I_asleep.
  - simpl. intros _ w3 H3. now apply I_cleanup.
Qed.

Lemma applyCalibration_keeps fuel calibrationType quality w :
  I w -> keeps (fun _ w1 => F w1) I (applyCalibration fuel calibrationType quality w).
Proof.
  intros H. unfold applyCalibration.
  apply keeps_bind; simpl. apply keeps_bind.
  eapply keeps_weaken.
  - apply (keeps_while I).
    + intros w3 H3. unfold finalizePending, bind, member, ret.
      destruct (m_operationCompleted (self w3)); simpl; auto.
    + intros w3 H3. simpl. now apply I_asleep.
    + apply I_logged; auto.
  - simpl. intros _ w3 H3. apply keeps_bind.
    unfold returnFalseIfAborted, bind, member.
    destruct (m_calibrationAborted (self w3)); simpl; auto.
    exact (I_commit calibrationType (CalibrationQualitiesMap quality) w3 H3).
Qed.

Lemma calibrateWithType_keeps fuel calibrationType w :
  I (with_self (set_calibrationInProgress true (self w)) w) ->
  keeps (fun _ w1 => F w1) I (calibrateWithType fuel calibrationType w).
Proof.
  intros H. unfold calibrateWithType. apply keeps_bind.
  eapply keeps_weaken; [apply collectAndProcess_keeps; exact H|].
  intros [b|] w1; simpl; auto. intros H1.
  rewrite evaluateCalibration_branch.
  destruct (quality_lt _ _).
  - apply rejectCalibration_keeps. now apply I_logged.
  - apply applyCalibration_keeps. now apply I_logged.
Qed.

End Keeps.

(* ------------------------------------------------------------------ *)
(** ** The in-progress flag and the threshold *)

(** X1. A run of [calibrateWithType] that has returned, with either result,
    has lowered the in-progress flag; a run that has not returned (it is
    inside a loop, or has read past the end of the phase list) has the flag
    raised. *)
Theorem in_progress_exactly_while_running (fuel : nat) (calibrationType : string) (w : World) :
  match calibrateWithType fuel calibrationType w with
  | Returned _ w' => isCalibrationInProgress w' = Returned false w'
  | StillLooping _ w' => isCalibrationInProgress w' = Returned true w'
  | Undefined _ w' => isCalibrationInProgress w' = Returned true w'
  end.
Proof.
  pose proof (calibrateWithType_keeps
                (fun w' => m_calibrationInProgress (self w') = true)
                (fun w' => m_calibrationInProgress (self w') = false)
                (fun _ => True)) as H.
  specialize (H (fun d w' Hw => eq_trans (proj2 (proj2 (proj2 (asleep_members d w')))) Hw)).
  specialize (H (fun c w' _ Hw => Hw)).
  specialize (H (fun w' Hw => Hw) (fun w' Hw => Hw) (fun w' Hw => Hw)).
  specialize (H (fun w' _ => eq_refl) (fun t q w' _ => eq_refl)).
  specialize (H (fun c _ => Logic.I) (fun t => Logic.I) Logic.I Logic.I).
  specialize (H fuel calibrationType w eq_refl).
  unfold isCalibrationInProgress, member.
  destruct (calibrateWithType fuel calibrationType w); simpl in H; now rewrite H.
Qed.

(** X2. The threshold set by [setMinimumAcceptableCalibrationQuality] is
    what [getMinimumAcceptableCalibrationQuality] returns after any run of
    [calibrateWithType], whatever its outcome: neither the calibration nor
    [cleanup] nor the callbacks touch it. *)
Theorem threshold_survives_calibration
    (quality : CalibrationQuality) (fuel : nat) (calibrationType : string) (w : World) :
  let w0 := with_self (setMinimumAcceptableCalibrationQuality quality (self w)) w in
  let w' := world_of (calibrateWithType fuel calibrationType w0) in
  getMinimumAcceptableCalibrationQuality w' = Returned quality w'.
Proof.
  intros w0 w'.
  pose proof (calibrateWithType_keeps
                (fun w1 => m_minimumAccaptableQuality (self w1) = quality)
                (fun w1 => m_minimumAccaptableQuality (self w1) = quality)
                (fun _ => True)) as H.
  specialize (H (fun d w1 Hw => eq_trans (proj1 (asleep_members d w1)) Hw)).
  specialize (H (fun c w1 _ Hw => Hw)).
  specialize (H (fun w1 Hw => Hw) (fun w1 Hw => Hw) (fun w1 Hw => Hw)).
  specialize (H (fun w1 Hw => Hw) (fun t q w1 Hw => Hw)).
  specialize (H (fun c _ => Logic.I) (fun t => Logic.I) Logic.I Logic.I).
  specialize (H fuel calibrationType w0 eq_refl).
  unfold getMinimumAcceptableCalibrationQuality, member, w'.
  destruct (calibrateWithType fuel calibrationType w0); simpl in *; now rewrite H.
Qed.

(* ------------------------------------------------------------------ *)
(** ** An abort signalled before the calibration starts *)

Lemma while_exit fuel l cond body w w1 :
  cond w = Returned false w1 -> while fuel l cond body w = Returned tt w1.
Proof.
  intros H. destruct fuel; simpl; now rewrite (bind_Returned _ _ _ _ _ H).
Qed.

Lemma proceed_Some {A} (m k : M (option A)) w b w1 :
  m w = Returned (Some b) w1 -> proceed m k w = Returned (Some b) w1.
Proof. intros H. unfold proceed. now rewrite (bind_Returned _ _ _ _ _ H). Qed.

Lemma discardPrevious_aborted fuel calibrationType w :
  m_calibrationAborted (self w) = true ->
  exists w',
    discardPrevious fuel calibrationType w = Returned (Some false) w' /\
    cleaned w' /\
    m_calibrationAborted (self w') = false /\
    now w' = now w /\
    calls w' = calls w
               ++ CIsCalibrationPerformed calibrationType
               :: (if existsb (String.eqb calibrationType)
                        (performedCalibrations (m_suitsConnector w))
                   then [CClearCalibration calibrationType] else [])
               ++ [CIsCalibrationPerformed calibrationType].
Proof.
  intros Hab. unfold discardPrevious. step. step.
  change (m_suitsConnector (with_self (set_calibrationInProgress true (self w)) w))
    with (m_suitsConnector w).
  destruct (existsb (String.eqb calibrationType)
              (performedCalibrations (m_suitsConnector w))) eqn:Hperf.
  - step.
    erewrite (bind_Returned (while _ _ _ _)).
    2:{ apply while_exit. unfold discardPending, isCalibrationPerformed.
        step. simpl. rewrite Hperf. step. simpl. rewrite Hab. reflexivity. }
    unfold returnFalseIfAborted. step. simpl. rewrite Hab.
    eexists. split; [reflexivity|]. simpl. repeat split.
    rewrite <- !app_assoc. reflexivity.
  - step.
    erewrite (bind_Returned (while _ _ _ _)).
    2:{ apply while_exit. unfold discardPending, isCalibrationPerformed.
        step. simpl. rewrite Hperf. reflexivity. }
    unfold returnFalseIfAborted. step. simpl. rewrite Hab.
    eexists. split; [reflexivity|]. simpl. repeat split.
    rewrite <- !app_assoc. reflexivity.
Qed.

(** X3. [calibrateWithType] does not lower the aborted flag when it starts.
    If the flag is raised when it is called, it returns false at once,
    without sleeping and for any fuel: it has asked whether a calibration
    of the type is performed, has sent [clearCalibration] if so, has asked
    again, and has run [cleanup], which lowers the flag. *)
Theorem stale_abort_fails_the_next_calibration
    (fuel : nat) (calibrationType : string) (w : World) :
  m_calibrationAborted (self w) = true ->
  exists w',
    calibrateWithType fuel calibrationType w = Returned false w' /\
    cleaned w' /\
    m_calibrationAborted (self w') = false /\
    now w' = now w /\
    calls w' = calls w
               ++ CIsCalibrationPerformed calibrationType
               :: (if existsb (String.eqb calibrationType)
                        (performedCalibrations (m_suitsConnector w))
                   then [CClearCalibration calibrationType] else [])
               ++ [CIsCalibrationPerformed calibrationType].
Proof.
  intros Hab.
  destruct (discardPrevious_aborted fuel calibrationType w Hab) as (w' & Hrun & Hrest).
  exists w'. split; [|exact Hrest].
  unfold calibrateWithType, collectAndProcess.
  now rewrite (bind_Returned _ _ _ _ _ (proceed_Some _ _ _ _ _ Hrun)).
Qed.

(* ------------------------------------------------------------------ *)
(** ** The last calibration *)

(** X4. After [calibrateWithType] has returned, [getLastCalibrationInfo]
    gives the requested type if the result was true and the empty string if
    it was false; the caller's quality is never updated, because the
    parameter is passed by value. *)
Theorem getLastCalibrationInfo_after_calibration
    (fuel : nat) (calibrationType type : string) (quality : CalibrationQuality)
    (w w' : World) (result : bool) :
  calibrateWithType fuel calibrationType w = Returned result w' ->
  getLastCalibrationInfo type quality w'
  = Returned (if result then calibrationType else EmptyString, quality) w'.
Proof.
  intros Hrun.
  pose proof (calibrateWithType_post fuel calibrationType w) as Hpost.
  rewrite Hrun in Hpost. simpl in Hpost.
  unfold getLastCalibrationInfo, bind, member, ret.
  destruct result.
  - destruct Hpost as ((Hused & _) & _). now rewrite Hused.
  - unfold cleaned in Hpost. now rewrite Hpost.
Qed.

(* ------------------------------------------------------------------ *)
(** ** The callbacks *)

Lemma receive_flags es c :
  receive es c
  = {| m_minimumAccaptableQuality := m_minimumAccaptableQuality c;
       m_achievedCalibrationQuality := m_achievedCalibrationQuality c;
       m_usedCalibrationType := m_usedCalibrationType c;
       m_calibrationAborted := m_calibrationAborted c || existsb is_aborted es;
       m_calibrationInProgress := m_calibrationInProgress c;
       m_calibrationProcessed := m_calibrationProcessed c || existsb is_processed es;
       m_operationCompleted := m_operationCompleted c || existsb is_complete es |}.
Proof.
  rewrite <- receive_aborted, <- receive_processed, <- receive_completed.
  destruct (receive_others es c) as (H1 & H2 & H3 & H4).
  rewrite <- H1, <- H2, <- H3, <- H4.
  now destruct (receive es c).
Qed.

Lemma existsb_same_elements {A} (f : A -> bool) (l l' : list A) :
  (forall a, In a l <-> In a l') -> existsb f l = existsb f l'.
Proof.
  intros H. apply eq_true_iff_eq. rewrite !existsb_exists.
  split; intros (a & Hin & Ha); exists a; split; auto; now apply H.
Qed.

(** X5. What a batch of notifications does to the calibrator depends only
    on which notifications occur in it, not on their order or on how often
    each occurs: the callbacks only raise flags. *)
Theorem notifications_act_as_a_set (es es' : list EngineEvent) (c : XSensMVNCalibrator) :
  (forall e, In e es <-> In e es') ->
  receive es c = receive es' c.
Proof.
  intros H. rewrite !receive_flags.
  now rewrite (existsb_same_elements is_aborted _ _ H),
              (existsb_same_elements is_processed _ _ H),
              (existsb_same_elements is_complete _ _ H).
Qed.

(* ------------------------------------------------------------------ *)
(** ** The calls of a run *)

Lemma only_collecting_logged w0 c w :
  collecting c = true -> only_collecting w0 w -> only_collecting w0 (logged c w).
Proof.
  intros Hc (l & Hl & Hall). exists (l ++ [c]). split.
  - simpl. rewrite Hl. now rewrite app_assoc.
  - apply Forall_app. split; auto.
Qed.

Lemma collectAndProcess_only_collecting fuel calibrationType w :
  only_collecting w (world_of (collectAndProcess fuel calibrationType w)).
Proof.
  assert (H : keeps (fun _ w1 => only_collecting w w1) (only_collecting w)
                    (collectAndProcess fuel calibrationType w)).
  { eapply keeps_weaken.
    - apply (collectAndProcess_keeps (only_collecting w) (only_collecting w)
               (fun c => collecting c = true)
               (fun d w1 H1 => H1)
               (fun c w1 => only_collecting_logged w c w1)
               (fun w1 H1 => H1) (fun w1 H1 => H1) (fun w1 H1 => H1) (fun w1 H1 => H1)
               (fun c Hc => Hc)).
      exists []. split; [now rewrite app_nil_r|constructor].
    - intros [b|] w1; simpl; auto. }
  destruct (collectAndProcess fuel calibrationType w); exact H.
Qed.

(** X6. Whatever its outcome, [calibrateWithType] has made only calls of
    the discard, collection and processing stages, followed at most once by
    the fetch of the result and one decision: [abortCalibration] when the
    reported quality is below the threshold, [finalizeCalibration] when it
    is not.  So a calibration below the threshold is never finalised, and
    the abort command is never sent for one that meets it. *)
Theorem decision_is_the_last_call (fuel : nat) (calibrationType : string) (w : World) :
  let achieved := CalibrationQualitiesMap
                    (m_quality (calibrationResult (m_suitsConnector w) calibrationType)) in
  let minimum := m_minimumAccaptableQuality (self w) in
  let w' := world_of (calibrateWithType fuel calibrationType w) in
  exists l,
    Forall (fun c => collecting c = true) l /\
    (calls w' = calls w ++ l \/
     calls w' = calls w ++ l
                ++ [CCalibrationResult calibrationType;
                    if quality_lt achieved minimum
                    then CAbortCalibration else CFinalizeCalibration]).
Proof.
  intros achieved minimum w'.
  pose proof (collectAndProcess_only_collecting fuel calibrationType w) as (l & Hl & Hall).
  exists l. split; [exact Hall|].
  unfold w', calibrateWithType.
  destruct (collectAndProcess fuel calibrationType w) as [[b|] w1|lp w1|f w1] eqn:Hrun;
    simpl in Hl.
  - left. rewrite (bind_Returned _ _ _ _ _ Hrun). exact Hl.
  - right. fold (calibrateWithType fuel calibrationType w).
    destruct (calibrateWithType_evaluates _ _ _ _ Hrun) as ((_ & Hp) & _ & Heq).
    rewrite Heq. fold achieved minimum.
    destruct (quality_lt achieved minimum).
    + destruct (rejectCalibration_path fuel
                  (logged (CCalibrationResult calibrationType) w1) Hp) as (-> & _).
      simpl. rewrite Hl. now rewrite <- !app_assoc.
    + destruct (applyCalibration_path fuel calibrationType
                  (m_quality (calibrationResult (m_suitsConnector w) calibrationType))
                  (logged (CCalibrationResult calibrationType) w1)) as (-> & _).
      simpl. rewrite Hl. now rewrite <- !app_assoc.
  - left. rewrite (bind_StillLooping _ _ _ _ _ Hrun). exact Hl.
  - left. unfold bind. rewrite Hrun. exact Hl.
Qed.

(* ------------------------------------------------------------------ *)
(** ** [getBodyDimensions] *)

Lemma map_find_insert_sorted k k' v m :
  map_find k' m = None ->
  map_find k (insert_sorted k' v m)
  = if String.eqb k k' then Some v else map_find k m.
Proof.
  induction m as [|[k'' v''] rest IH]; simpl; intros Hnone.
  - reflexivity.
  - destruct (String.eqb k' k'') eqn:E1; [discriminate|].
    destruct (String.ltb k' k''); simpl.
    + reflexivity.
    + rewrite (IH Hnone).
      destruct (String.eqb k k'') eqn:E2; auto.
      destruct (String.eqb k k') eqn:E3; auto.
      apply String.eqb_eq in E2, E3. subst.
      now rewrite String.eqb_refl in E1.
Qed.

(** [find] after [insert]: a key already present keeps its value, a new key
    gets the inserted one, the other keys are not affected. *)
Lemma map_find_insert k k' v m :
  map_find k (map_insert k' v m)
  = match map_find k m with
    | Some x => Some x
    | None => if String.eqb k k' then Some v else None
    end.
Proof.
  unfold map_insert. destruct (map_find k' m) as [x|] eqn:Hfind.
  - destruct (map_find k m) eqn:Hk; auto.
    destruct (String.eqb k k') eqn:E; auto.
    apply String.eqb_eq in E. subst. congruence.
  - rewrite (map_find_insert_sorted _ _ _ _ Hfind).
    destruct (String.eqb k k') eqn:E.
    + apply String.eqb_eq in E. subst. now rewrite Hfind.
    + now destruct (map_find k m).
Qed.

Lemma collectBodyDimensions_run bodyDimList : forall dimensions w,
  exists filled,
    collectBodyDimensions bodyDimList dimensions w
    = Returned filled (logged_all (map CBodyDimensionValueEstimate bodyDimList) w) /\
    forall k,
      map_find k filled
      = match map_find k dimensions with
        | Some v => Some v
        | None =>
            if existsb (String.eqb k) bodyDimList
               && negb (static_cast_int
                          (bodyDimensionValueEstimate (m_suitsConnector w) k) =? -1)
            then Some (bodyDimensionValueEstimate (m_suitsConnector w) k)
            else None
        end.
Proof.
  induction bodyDimList as [|body rest IH]; intros dimensions w; simpl.
  - exists dimensions. split; [unfold ret; now rewrite logged_all_nil|].
    intros k. now destruct (map_find k dimensions).
  - step.
    set (value := bodyDimensionValueEstimate (m_suitsConnector w) body).
    set (w1 := logged (CBodyDimensionValueEstimate body) w).
    destruct (static_cast_int value =? -1) eqn:Hcast; cbn [negb].
    + destruct (IH dimensions w1) as (filled & Hrun & Hfind).
      exists filled. split; [rewrite Hrun; unfold w1; now rewrite logged_all_cons|].
      intros k. rewrite Hfind. destruct (map_find k dimensions); auto.
      change (m_suitsConnector w1) with (m_suitsConnector w).
      destruct (String.eqb k body) eqn:E; simpl; auto.
      apply String.eqb_eq in E. subst k. fold value. rewrite Hcast. simpl.
      now rewrite andb_false_r.
    + destruct (IH (map_insert body value dimensions) w1) as (filled & Hrun & Hfind).
      exists filled. split; [rewrite Hrun; unfold w1; now rewrite logged_all_cons|].
      intros k. rewrite Hfind, map_find_insert.
      destruct (map_find k dimensions); auto.
      change (m_suitsConnector w1) with (m_suitsConnector w).
      destruct (String.eqb k body) eqn:E; simpl; auto.
      apply String.eqb_eq in E. subst k. fold value. now rewrite Hcast.
Qed.

Lemma getBodyDimensions_connected (dimensions : StdMap) (w : World) :
  isConnected (m_suitsConnector w) = true ->
  exists filled w',
    getBodyDimensions dimensions w = Returned (true, filled) w' /\
    self w' = self w /\
    calls w' = calls w ++ [CStatus; CBodyDimensionLabelList]
               ++ map CBodyDimensionValueEstimate
                      (bodyDimensionLabelList (m_suitsConnector w)) /\
    forall label,
      map_find label filled
      = match map_find label dimensions with
        | Some v => Some v
        | None => measured (m_suitsConnector w) label
        end.
Proof.
  intros Hc. unfold getBodyDimensions. step. rewrite Hc. cbn [negb]. step.
  destruct (collectBodyDimensions_run
              (bodyDimensionLabelList (m_suitsConnector w)) dimensions
              (logged CBodyDimensionLabelList (logged CStatus w)))
    as (filled & Hrun & Hfind).
  change (bodyDimensionLabelList (m_suitsConnector (logged CStatus w)))
    with (bodyDimensionLabelList (m_suitsConnector w)).
  rewrite (bind_Returned _ _ _ _ _ Hrun).
  eexists. eexists. split; [reflexivity|]. simpl.
  split; [reflexivity|]. split; [now rewrite <- !app_assoc|].
  exact Hfind.
Qed.

Lemma getBodyDimensions_unplugged (dimensions : StdMap) (w : World) :
  isConnected (m_suitsConnector w) = false ->
  getBodyDimensions dimensions w = Returned (false, dimensions) (logged CStatus w).
Proof.
  intros Hc. unfold getBodyDimensions. step. now rewrite Hc.
Qed.

(** X7. On a connected handle [getBodyDimensions] returns true, changes no
    member, asks the handle for its status, its labels and the estimate of
    every label, and leaves in the map: every entry the map already had,
    with its old value, and, for every other label of the handle whose
    estimate does not truncate to -1, that estimate.  On a handle that is
    not connected it returns false, leaves the map as it was and has only
    asked for the status. *)
Theorem getBodyDimensions_contents (dimensions : StdMap) (w : World) :
  (isConnected (m_suitsConnector w) = true ->
   exists filled w',
     getBodyDimensions dimensions w = Returned (true, filled) w' /\
     self w' = self w /\
     calls w' = calls w ++ [CStatus; CBodyDimensionLabelList]
                ++ map CBodyDimensionValueEstimate
                       (bodyDimensionLabelList (m_suitsConnector w)) /\
     forall label,
       map_find label filled
       = match map_find label dimensions with
         | Some v => Some v
         | None => measured (m_suitsConnector w) label
         end) /\
  (isConnected (m_suitsConnector w) = false ->
   getBodyDimensions dimensions w = Returned (false, dimensions) (logged CStatus w)).
Proof.
  split.
  - apply getBodyDimensions_connected.
  - apply getBodyDimensions_unplugged.
Qed.

(** X8. [getBodyDimension] in terms of the handle: when the handle is
    connected, knows the label and has an estimate for it that does not
    truncate to -1, it returns false and leaves [dim] as it was; in every
    other case (handle not connected, label unknown, estimate unknown) it
    dereferences the end iterator.  So it never hands a dimension back. *)
Theorem getBodyDimension_by_handle (bodyName : string) (dim : Q) (w : World) :
  match (if isConnected (m_suitsConnector w)
         then measured (m_suitsConnector w) bodyName else None) with
  | Some _ => exists w', getBodyDimension bodyName dim w = Returned (false, dim) w'
  | None => exists w', getBodyDimension bodyName dim w = Undefined EndIteratorDereference w'
  end.
Proof.
  unfold getBodyDimension.
  destruct (isConnected (m_suitsConnector w)) eqn:Hc.
  - destruct (getBodyDimensions_connected [] w Hc) as (filled & w' & Hrun & _ & _ & Hfind).
    rewrite (bind_Returned _ _ _ _ _ Hrun). cbv beta zeta. cbn [snd].
    rewrite (Hfind bodyName). cbn [map_find].
    destruct (measured (m_suitsConnector w) bodyName); eexists; reflexivity.
  - rewrite (bind_Returned _ _ _ _ _ (getBodyDimensions_unplugged [] w Hc)).
    simpl. eexists. reflexivity.
Qed.

(* ------------------------------------------------------------------ *)
(** ** The calls of the collection *)

Lemma frame_calls_nil s e : e <= s -> frame_calls s e = [].
Proof.
  intros H. unfold frame_calls. replace (Z.to_nat (e - s)) with O by lia. reflexivity.
Qed.

Lemma frame_calls_step s e :
  s < e -> frame_calls s e = CCalibrationPose s :: frame_calls (s + 1) e.
Proof.
  intros H. unfold frame_calls.
  replace (Z.to_nat (e - s)) with (S (Z.to_nat (e - (s + 1)))) by lia. reflexivity.
Qed.


(** A frame loop that has returned with the aborted flag down has played
    every frame of the phase, 16 ms each. *)
Lemma playFrames_returned fuel : forall s e w w',
  playFrames fuel s e w = Returned tt w' ->
  m_calibrationAborted (self w') = false ->
  calls w' = calls w ++ frame_calls s e /\
  now w' = (now w + 16 * Z.to_nat (e - s))%nat.
Proof.
  induction fuel as [|fuel IH]; intros s e w w' Hrun Hab;
    rewrite playFrames_eq in Hrun;
    destruct (s <? e) eqn:Hlt; simpl in Hrun;
    try (destruct (m_calibrationAborted (self w)) eqn:Hw; simpl in Hrun);
    try discriminate;
    try (inversion Hrun; subst w'; congruence).
  - inversion Hrun; subst w'. apply Z.ltb_ge in Hlt.
    rewrite frame_calls_nil by lia. rewrite app_nil_r.
    split; auto. replace (Z.to_nat (e - s)) with O by lia. lia.
  - destruct (IH _ _ _ _ Hrun Hab) as (Hcalls & Hnow).
    apply Z.ltb_lt in Hlt. rewrite frame_calls_step by lia.
    rewrite Hcalls, Hnow, asleep_calls, asleep_now. simpl.
    split; [now rewrite <- app_assoc|lia].
  - inversion Hrun; subst w'. apply Z.ltb_ge in Hlt.
    rewrite frame_calls_nil by lia. rewrite app_nil_r.
    split; auto. replace (Z.to_nat (e - s)) with O by lia. lia.
Qed.

Lemma followPhases_eq fuel frames calibPhases phase w :
  followPhases fuel frames calibPhases phase w
  = if phase <? size_minus_one calibPhases then
      match fuel with
      | O => StillLooping PhaseLoop w
      | S fuel' =>
          match nth_error calibPhases (Z.to_nat phase) with
          | None => Undefined IndexOutOfRange w
          | Some s =>
              match nth_error calibPhases (Z.to_nat ((phase + 1) mod unsigned_modulus)) with
              | None => Undefined IndexOutOfRange w
              | Some e =>
                  match playFrames frames s e
                          (logged (CCalibrationPhaseText (unsigned_to_int phase)) w) with
                  | Returned _ w2 =>
                      if m_calibrationAborted (self w2)
                      then Returned (Some false) (with_self (cleanup_members (self w2)) w2)
                      else followPhases fuel' frames calibPhases
                             ((phase + 1) mod unsigned_modulus) w2
                  | StillLooping l w2 => StillLooping l w2
                  | Undefined f w2 => Undefined f w2
                  end
              end
          end
      end
    else Returned None w.
Proof.
  destruct fuel; simpl; destruct (phase <? size_minus_one calibPhases); try reflexivity.
  unfold bind at 1, XsArray_at.
  destruct (nth_error calibPhases (Z.to_nat phase)); [|reflexivity].
  unfold ret at 1. unfold bind at 1.
  destruct (nth_error calibPhases _); [|reflexivity].
  unfold ret at 1. step. unfold bind at 1.
  destruct (playFrames frames z z0 _); try reflexivity.
  unfold proceed, returnFalseIfAborted, bind, member.
  destruct (m_calibrationAborted (self w0)); reflexivity.
Qed.

Lemma skipn_cons {A} (i : nat) : forall (l : list A) a tl,
  skipn i l = a :: tl ->
  nth_error l i = Some a /\ skipn (S i) l = tl /\ List.length l = (i + S (List.length tl))%nat.
Proof.
  induction i as [|i IH]; intros l a tl H.
  - simpl in H. subst l. simpl. auto.
  - destruct l as [|b l]; [discriminate|]. simpl in H.
    destruct (IH _ _ _ H) as (H1 & H2 & H3). simpl. repeat split; auto.
Qed.

Lemma size_minus_one_small calibPhases :
  (1 <= List.length calibPhases)%nat ->
  Z.of_nat (List.length calibPhases) < 2 ^ 31 ->
  size_minus_one calibPhases = Z.of_nat (List.length calibPhases) - 1.
Proof.
  intros H1 H2. unfold size_minus_one, XsSize_modulus. apply Z.mod_small. lia.
Qed.

(** A collection that has fallen through to the statement after the loop
    has asked for the text of every phase and for every frame of it, in
    order, and has lasted 16 ms per frame. *)
Lemma followPhases_returned frames calibPhases :
  Z.of_nat (List.length calibPhases) < 2 ^ 31 ->
  forall fuel i rest w w',
    skipn i calibPhases = rest -> rest <> [] ->
    followPhases fuel frames calibPhases (Z.of_nat i) w = Returned None w' ->
    calls w' = calls w ++ collection_calls i rest /\
    now w' = (now w + 16 * frames_of rest)%nat.
Proof.
  intros Hlen.
  induction fuel as [|fuel IH]; intros i rest w w' Hskip Hne Hrun;
    rewrite followPhases_eq in Hrun;
    destruct rest as [|s tl]; try congruence;
    destruct (skipn_cons _ _ _ _ Hskip) as (Hs & Htl & Hl);
    rewrite size_minus_one_small in Hrun by lia;
    destruct tl as [|e tl'].
  - replace (Z.of_nat i <? _) with false in Hrun by (symmetry; apply Z.ltb_ge; simpl in Hl; lia).
    inversion Hrun; subst w'. simpl. rewrite app_nil_r. split; auto.
  - replace (Z.of_nat i <? _) with true in Hrun by (symmetry; apply Z.ltb_lt; simpl in Hl; lia).
    discriminate.
  - replace (Z.of_nat i <? _) with false in Hrun by (symmetry; apply Z.ltb_ge; simpl in Hl; lia).
    inversion Hrun; subst w'. simpl. rewrite app_nil_r. split; auto.
  - replace (Z.of_nat i <? _) with true in Hrun by (symmetry; apply Z.ltb_lt; simpl in Hl; lia).
    simpl in Hl.
    rewrite Nat2Z.id, Hs in Hrun.
    replace ((Z.of_nat i + 1) mod unsigned_modulus) with (Z.of_nat (S i)) in Hrun
      by (unfold unsigned_modulus; rewrite Z.mod_small; lia).
    destruct (skipn_cons _ _ _ _ Htl) as (He & _).
    rewrite Nat2Z.id, He in Hrun.
    replace (unsigned_to_int (Z.of_nat i)) with (Z.of_nat i) in Hrun
      by (unfold unsigned_to_int; replace (Z.of_nat i <? 2 ^ 31) with true; auto;
          symmetry; apply Z.ltb_lt; lia).
    destruct (playFrames frames s e _) as [[] w2| |] eqn:Hplay; try discriminate.
    destruct (m_calibrationAborted (self w2)) eqn:Hab; [discriminate|].
    destruct (playFrames_returned _ _ _ _ _ Hplay Hab) as (Hc2 & Hn2).
    destruct (IH (S i) (e :: tl') w2 w' Htl ltac:(discriminate) Hrun) as (Hc & Hn).
    split.
    + rewrite Hc, Hc2. simpl. now rewrite <- !app_assoc.
    + rewrite Hn, Hn2. simpl. lia.
Qed.

Lemma proceed_None_inv {A} (m k : M (option A)) w w' :
  proceed m k w = Returned None w' ->
  exists w1, m w = Returned None w1 /\ k w1 = Returned None w'.
Proof.
  unfold proceed, bind. destruct (m w) as [[b|] w1| |]; try discriminate.
  intros H. exists w1. auto.
Qed.

Lemma discardPending_eq calibrationType w :
  discardPending calibrationType w
  = Returned (existsb (String.eqb calibrationType)
                (performedCalibrations (m_suitsConnector w))
              && negb (m_calibrationAborted (self w)))
             (logged (CIsCalibrationPerformed calibrationType) w).
Proof.
  unfold discardPending, isCalibrationPerformed. step.
  destruct (existsb _ _); reflexivity.
Qed.

(** A discard wait that has returned has asked once per poll, and once more. *)
Lemma discard_wait_returned calibrationType fuel : forall w w',
  while fuel DiscardWait (discardPending calibrationType) (sleep_for 10) w
  = Returned tt w' ->
  exists k,
    calls w' = calls w ++ repeat (CIsCalibrationPerformed calibrationType) (S k) /\
    now w' = (now w + 10 * k)%nat.
Proof.
  induction fuel as [|fuel IH]; intros w w' Hrun; simpl in Hrun;
    rewrite (bind_Returned _ _ _ _ _ (discardPending_eq calibrationType w)) in Hrun;
    destruct (_ && _); try discriminate.
  - inversion Hrun; subst w'. exists O. simpl. split; auto.
  - unfold bind at 1, sleep_for at 1 in Hrun.
    destruct (IH _ _ Hrun) as (k & Hc & Hn).
    exists (S k). rewrite Hc, Hn, asleep_calls, asleep_now. simpl.
    split; [now rewrite <- app_assoc|lia].
  - inversion Hrun; subst w'. exists O. simpl. split; auto.
Qed.

Lemma returnFalseIfAborted_None w w' :
  returnFalseIfAborted w = Returned None w' ->
  w' = w /\ m_calibrationAborted (self w) = false.
Proof.
  unfold returnFalseIfAborted, bind, member.
  destruct (m_calibrationAborted (self w)); simpl; intros H; inversion H; auto.
Qed.

Lemma discardPrevious_returned fuel calibrationType w w1 :
  discardPrevious fuel calibrationType w = Returned None w1 ->
  exists k,
    calls w1 = calls w
               ++ CIsCalibrationPerformed calibrationType
               :: (if existsb (String.eqb calibrationType)
                        (performedCalibrations (m_suitsConnector w))
                   then [CClearCalibration calibrationType] else [])
               ++ repeat (CIsCalibrationPerformed calibrationType) (S k) /\
    now w1 = (now w + 10 * k)%nat.
Proof.
  unfold discardPrevious. step. step.
  change (m_suitsConnector (with_self (set_calibrationInProgress true (self w)) w))
    with (m_suitsConnector w).
  destruct (existsb (String.eqb calibrationType)
              (performedCalibrations (m_suitsConnector w))); step;
    unfold bind at 1;
    destruct (while _ _ _ _ _) as [[] w2| |] eqn:Hwait; try discriminate;
    intros Hrun; apply returnFalseIfAborted_None in Hrun; destruct Hrun as (-> & _);
    destruct (discard_wait_returned _ _ _ _ Hwait) as (k & Hc & Hn);
    exists k; rewrite Hc, Hn; simpl; (split; [now rewrite <- !app_assoc|reflexivity]).
Qed.

Lemma collectData_returned fuel calibrationType w w' :
  let calibPhases := calibrationPhaseList (m_suitsConnector w) in
  Z.of_nat (List.length calibPhases) < 2 ^ 31 ->
  collectData fuel calibrationType w = Returned None w' ->
  calls w' = calls w
             ++ [CInitializeCalibration calibrationType; CCalibrationPhaseList;
                 CStartCalibration]
             ++ collection_calls 0 calibPhases /\
  now w' = (now w + 3000 + 16 * frames_of calibPhases)%nat.
Proof.
  intros calibPhases Hlen. unfold collectData. step. step. step. step.
  change (calibrationPhaseList
            (m_suitsConnector (logged (CInitializeCalibration calibrationType) w)))
    with calibPhases.
  intros Hrun.
  assert (Hne : calibPhases <> []).
  { intros Hnil. rewrite Hnil in Hrun. rewrite followPhases_eq in Hrun.
    destruct fuel; simpl in Hrun; discriminate. }
  destruct (followPhases_returned fuel calibPhases Hlen fuel O calibPhases _ _
              eq_refl Hne Hrun) as (Hc & Hn).
  rewrite Hc, Hn. simpl. split; [now rewrite <- !app_assoc|reflexivity].
Qed.


Lemma processData_returned fuel w w' :
  processData fuel w = Returned None w' ->
  exists m,
    calls w' = calls w ++ [CStopCalibration] /\
    now w' = (now w + 100 + 10 * m)%nat.
Proof.
  unfold processData. step. step. step. unfold bind at 1.
  match goal with
  | |- context [while fuel ProcessingWait processingPending (sleep_for 10) ?w2] =>
      destruct (wait_outcome ProcessingWait _ _ processingPending_reads fuel w2)
        as [(m & _ & Hwait & _)|(Hwait & _)]; rewrite Hwait; [|discriminate]
  end.
  intros Hrun. apply returnFalseIfAborted_None in Hrun. destruct Hrun as (-> & _).
  exists m. rewrite napping_calls, napping_now, asleep_now. simpl. split; auto.
Qed.

(** X9. A run of [calibrateWithType] that has returned true has made
    exactly these calls, in this order: the query for a previous
    calibration, [clearCalibration] if there was one, the query again once
    per poll of the discard wait and once more, [initializeCalibration],
    the query of the phases, [startCalibration], then for every phase its
    text and every one of its frames, then [stopCalibration], the fetch of
    the result and [finalizeCalibration].  It has lasted the 3000 ms of the
    warm-up, 16 ms per frame, the 100 ms of the settling and 10 ms per poll
    of its three waits. *)
Theorem successful_calibration_trace
    (fuel : nat) (calibrationType : string) (w w' : World) :
  let calibPhases := calibrationPhaseList (m_suitsConnector w) in
  Z.of_nat (List.length calibPhases) < 2 ^ 31 ->
  calibrateWithType fuel calibrationType w = Returned true w' ->
  exists k m n : nat,
    calls w' = calls w
               ++ CIsCalibrationPerformed calibrationType
               :: (if existsb (String.eqb calibrationType)
                        (performedCalibrations (m_suitsConnector w))
                   then [CClearCalibration calibrationType] else [])
               ++ repeat (CIsCalibrationPerformed calibrationType) (S k)
               ++ [CInitializeCalibration calibrationType; CCalibrationPhaseList;
                   CStartCalibration]
               ++ collection_calls 0 calibPhases
               ++ [CStopCalibration; CCalibrationResult calibrationType;
                   CFinalizeCalibration] /\
    now w' = (now w + 10 * k + 3000 + 16 * frames_of calibPhases
              + 100 + 10 * m + 10 * n)%nat.
Proof.
  intros calibPhases Hlen Hrun.
  destruct (collectAndProcess fuel calibrationType w) as [[b|] w3|lp w3|f w3] eqn:Hcp.
  - pose proof (collectAndProcess_post fuel calibrationType w) as Hpost.
    rewrite Hcp in Hpost. destruct Hpost as (-> & _).
    unfold calibrateWithType in Hrun. rewrite (bind_Returned _ _ _ _ _ Hcp) in Hrun.
    discriminate.
  - destruct (calibrateWithType_evaluates _ _ _ _ Hcp) as ((_ & Hp) & _ & Heq).
    rewrite Hrun in Heq.
    unfold collectAndProcess in Hcp.
    apply proceed_None_inv in Hcp. destruct Hcp as (w1 & Hdiscard & Hcp).
    apply proceed_None_inv in Hcp. destruct Hcp as (w2 & Hcollect & Hprocess).
    pose proof (discardPrevious_post fuel calibrationType w) as Hpost.
    rewrite Hdiscard in Hpost. destruct Hpost as (((_ & _ & Hphases & _) & _) & _).
    destruct (discardPrevious_returned _ _ _ _ Hdiscard) as (k & Hc1 & Hn1).
    assert (Hlen1 : Z.of_nat (List.length (calibrationPhaseList (m_suitsConnector w1)))
                    < 2 ^ 31) by (now rewrite Hphases).
    destruct (collectData_returned _ _ _ _ Hlen1 Hcollect) as (Hc2 & Hn2).
    rewrite Hphases in Hc2, Hn2. fold calibPhases in Hc2, Hn2.
    destruct (processData_returned _ _ _ Hprocess) as (m & Hc3 & Hn3).
    exists k, m.
    set (w4 := logged (CCalibrationResult calibrationType) w3) in *.
    destruct (quality_lt _ _).
    + destruct (rejectCalibration_path fuel w4 Hp) as (_ & Hsat & _).
      rewrite <- Heq in Hsat. destruct Hsat as (Hfalse & _). discriminate.
    + destruct (applyCalibration_run fuel calibrationType
                  (m_quality (calibrationResult (m_suitsConnector w) calibrationType)) w4)
        as [(n & _ & _ & _ & Happly)|(Happly & _)];
        rewrite Happly in Heq; [|discriminate].
      destruct (m_calibrationAborted (self (napping n (logged CFinalizeCalibration w4))));
        [discriminate|].
      inversion Heq; subst w'. exists n.
      simpl. rewrite napping_calls, napping_now. simpl.
      rewrite Hc3, Hc2, Hc1, Hn3, Hn2, Hn1.
      split; [|lia].
      rewrite <- !app_assoc. simpl. rewrite <- !app_assoc. reflexivity.
  - unfold calibrateWithType in Hrun. rewrite (bind_StillLooping _ _ _ _ _ Hcp) in Hrun.
    discriminate.
  - unfold calibrateWithType, bind in Hrun. rewrite Hcp in Hrun. discriminate.
Qed.

(* ------------------------------------------------------------------ *)
(** ** The finalisation *)





(** X11. In the wait that follows [finalizeCalibration] an abort has
    priority over a completion seen at the same poll: if the engine signals
    the abort before the end of poll [n] and no completion has been seen
    before that poll, [applyCalibration] runs [cleanup] and returns false,
    even when the completion is signalled during poll [n] too. *)
Theorem abort_wins_over_completion
    (fuel n t : nat) (calibrationType : string) (quality : XmeCalibrationQuality)
    (w : World) :
  (n <= fuel)%nat ->
  m_operationCompleted (self w) = false ->
  (forall t', (now w <= t' < now w + 10 * (n - 1))%nat ->
              ~ In OnCalibrationComplete (engine w t')) ->
  (now w <= t < now w + 10 * n)%nat ->
  In OnCalibrationAborted (engine w t) ->
  exists w',
    applyCalibration fuel calibrationType quality w = Returned false w' /\
    cleaned w' /\
    calls w' = calls w ++ [CFinalizeCalibration].
Proof.
  intros Hn Hc Hnone Ht Hin.
  assert (Hab : m_calibrationAborted
                  (self (napping n (logged CFinalizeCalibration w))) = true).
  { apply napping_aborted. right. exists t. split; assumption. }
  destruct (applyCalibration_run fuel calibrationType quality w)
    as [(m & Hm & Hend & Hbefore & Hrun)|(_ & Hall)];
    set (w2 := logged CFinalizeCalibration w) in *.
  - assert (Hmn : (m <= n)%nat).
    { destruct (Nat.le_gt_cases m n) as [H|H]; auto.
      specialize (Hbefore n H). simpl in Hbefore. rewrite Hab in Hbefore.
      rewrite andb_false_r in Hbefore. discriminate. }
    assert (Hm_ab : m_calibrationAborted (self (napping m w2)) = true).
    { destruct (Nat.eq_dec m n) as [->|Hneq]; [exact Hab|].
      assert (Hcm : m_operationCompleted (self (napping m w2)) = false).
      { apply napping_not_completed. split; [exact Hc|].
        intros t' Ht'. apply Hnone. simpl in Ht'. lia. }
      simpl in Hend. rewrite Hcm in Hend. simpl in Hend.
      now apply negb_false_iff in Hend. }
    rewrite Hm_ab in Hrun.
    eexists. split; [exact Hrun|]. split; [reflexivity|].
    simpl. now rewrite napping_calls.
  - specialize (Hall n Hn). simpl in Hall. rewrite Hab in Hall.
    rewrite andb_false_r in Hall. discriminate.
Qed.

(* ------------------------------------------------------------------ *)
(** ** The collection when no abort is signalled *)

Lemma asleep_not_aborted d w :
  m_calibrationAborted (self w) = false ->
  (forall t, (now w <= t < now w + d)%nat -> ~ In OnCalibrationAborted (engine w t)) ->
  m_calibrationAborted (self (asleep d w)) = false.
Proof.
  intros Hab Hnone. apply not_true_iff_false. intros H.
  apply asleep_aborted in H. destruct H as [H|(t & Ht & Hin)].
  - congruence.
  - exact (Hnone t Ht Hin).
Qed.

Lemma playFrames_plays fuel : forall s e w,
  (Z.to_nat (e - s) <= fuel)%nat ->
  m_calibrationAborted (self w) = false ->
  (forall t, (now w <= t < now w + 16 * Z.to_nat (e - s))%nat ->
             ~ In OnCalibrationAborted (engine w t)) ->
  exists w',
    playFrames fuel s e w = Returned tt w' /\
    m_calibrationAborted (self w') = false /\
    engine w' = engine w.
Proof.
  induction fuel as [|fuel IH]; intros s e w Hfuel Hab Hnone;
    rewrite playFrames_eq, Hab; destruct (s <? e) eqn:Hlt; simpl;
    try (exists w; auto; fail).
  - apply Z.ltb_lt in Hlt. lia.
  - apply Z.ltb_lt in Hlt.
    set (w1 := asleep 16 (logged (CCalibrationPose s) w)).
    assert (Hab1 : m_calibrationAborted (self w1) = false).
    { apply asleep_not_aborted; auto. intros t Ht. apply Hnone. simpl in Ht. lia. }
    destruct (IH (s + 1) e w1) as (w' & Hrun & Hab' & Heng); auto.
    + lia.
    + intros t Ht. apply Hnone. unfold w1 in Ht. rewrite asleep_now in Ht.
      simpl in Ht. lia.
    + exists w'. auto.
Qed.

Lemma followPhases_plays frames calibPhases :
  Z.of_nat (List.length calibPhases) < 2 ^ 31 ->
  forall rest i fuel w,
    skipn i calibPhases = rest -> rest <> [] ->
    (List.length rest <= fuel)%nat ->
    (frames_of rest <= frames)%nat ->
    m_calibrationAborted (self w) = false ->
    (forall t, (now w <= t < now w + 16 * frames_of rest)%nat ->
               ~ In OnCalibrationAborted (engine w t)) ->
    exists w',
      followPhases fuel frames calibPhases (Z.of_nat i) w = Returned None w' /\
      m_calibrationAborted (self w') = false.
Proof.
  intros Hlen.
  induction rest as [|s tl IH]; intros i fuel w Hskip Hne Hfuel Hframes Hab Hnone;
    [congruence|].
  destruct (skipn_cons _ _ _ _ Hskip) as (Hs & Htl & Hl).
  rewrite followPhases_eq, size_minus_one_small by lia.
  destruct tl as [|e tl'].
  - replace (Z.of_nat i <? _) with false by (symmetry; apply Z.ltb_ge; simpl in Hl; lia).
    exists w. auto.
  - replace (Z.of_nat i <? _) with true by (symmetry; apply Z.ltb_lt; simpl in Hl; lia).
    simpl in Hl, Hfuel. destruct fuel as [|fuel]; [lia|].
    rewrite Nat2Z.id, Hs.
    replace ((Z.of_nat i + 1) mod unsigned_modulus) with (Z.of_nat (S i))
      by (unfold unsigned_modulus; rewrite Z.mod_small; lia).
    destruct (skipn_cons _ _ _ _ Htl) as (He & _).
    rewrite Nat2Z.id, He.
    replace (unsigned_to_int (Z.of_nat i)) with (Z.of_nat i)
      by (unfold unsigned_to_int; replace (Z.of_nat i <? 2 ^ 31) with true; auto;
          symmetry; apply Z.ltb_lt; lia).
    change (frames_of (s :: e :: tl'))
      with (Z.to_nat (e - s) + frames_of (e :: tl'))%nat in Hframes, Hnone.
    destruct (playFrames_plays frames s e
                (logged (CCalibrationPhaseText (Z.of_nat i)) w))
      as (w2 & Hplay & Hab2 & Heng2); auto.
    + lia.
    + intros t Ht. apply Hnone. simpl in Ht. lia.
    + rewrite Hplay, Hab2.
      destruct (playFrames_returned _ _ _ _ _ Hplay Hab2) as (_ & Hn2).
      apply (IH (S i) fuel w2 Htl); auto; try discriminate; try lia.
      * simpl. lia.
      * intros t Ht. rewrite Heng2. apply Hnone. rewrite Hn2 in Ht.
        cbn [now logged] in Ht. lia.
Qed.

(** X12. If no abort is signalled during the collection, it ends: with
    fuel for every phase and every frame, [collectData] falls through to
    the processing 3000 ms plus 16 ms per frame after it began, the aborted
    flag still down, having initialised and started the calibration and
    asked for every frame of every phase. *)
Theorem collection_without_abort (fuel : nat) (calibrationType : string) (w : World) :
  let calibPhases := calibrationPhaseList (m_suitsConnector w) in
  calibPhases <> [] ->
  Z.of_nat (List.length calibPhases) < 2 ^ 31 ->
  (List.length calibPhases <= fuel)%nat ->
  (frames_of calibPhases <= fuel)%nat ->
  m_calibrationAborted (self w) = false ->
  (forall t, (now w <= t < now w + 3000 + 16 * frames_of calibPhases)%nat ->
             ~ In OnCalibrationAborted (engine w t)) ->
  exists w',
    collectData fuel calibrationType w = Returned None w' /\
    m_calibrationAborted (self w') = false /\
    calls w' = calls w
               ++ [CInitializeCalibration calibrationType; CCalibrationPhaseList;
                   CStartCalibration]
               ++ collection_calls 0 calibPhases /\
    now w' = (now w + 3000 + 16 * frames_of calibPhases)%nat.
Proof.
  intros calibPhases Hne Hlen Hfuel Hframes Hab Hnone.
  assert (Hrun : exists w', collectData fuel calibrationType w = Returned None w' /\
                            m_calibrationAborted (self w') = false).
  { unfold collectData. step. step. step. step.
    change (calibrationPhaseList
              (m_suitsConnector (logged (CInitializeCalibration calibrationType) w)))
      with calibPhases.
    apply (followPhases_plays fuel calibPhases Hlen calibPhases O fuel); auto.
    - simpl. apply asleep_not_aborted; auto.
      intros t Ht. apply Hnone. simpl in Ht. lia.
    - intros t Ht. cbn [now logged] in Ht. rewrite asleep_now in Ht.
      cbn [now logged] in Ht.
      cbn [engine logged]. rewrite asleep_engine. cbn [engine logged].
      apply Hnone. lia. }
  destruct Hrun as (w' & Hrun & Hab').
  exists w'. split; [exact Hrun|]. split; [exact Hab'|].
  exact (collectData_returned _ _ _ _ Hlen Hrun).
Qed.

(* ------------------------------------------------------------------ *)
(** ** An abort during the warm-up *)

(** X13. The aborted flag is not read between the end of the discard and
    the first frame.  If the engine signals an abort during the 3000 ms of
    the warm-up and the phase list has at least one phase,
    [calibrateWithType] still sends [startCalibration] and asks for the
    text of the first phase; it then plays no frame, runs [cleanup] and
    returns false, and [stopCalibration] is never sent. *)
Theorem abort_during_warm_up
    (fuel t : nat) (calibrationType : string) (w w1 : World) :
  let calibPhases := calibrationPhaseList (m_suitsConnector w) in
  (2 <= List.length calibPhases)%nat ->
  Z.of_nat (List.length calibPhases) < 2 ^ 31 ->
  discardPrevious (S fuel) calibrationType w = Returned None w1 ->
  (now w1 <= t < now w1 + 3000)%nat ->
  In OnCalibrationAborted (engine w t) ->
  exists w',
    calibrateWithType (S fuel) calibrationType w = Returned false w' /\
    cleaned w' /\
    now w' = (now w1 + 3000)%nat /\
    calls w' = calls w1 ++ [CInitializeCalibration calibrationType; CCalibrationPhaseList;
                            CStartCalibration; CCalibrationPhaseText 0].
Proof.
  intros calibPhases Hlen2 Hlen Hdiscard Ht Hin.
  pose proof (discardPrevious_post (S fuel) calibrationType w) as Hpost.
  rewrite Hdiscard in Hpost. destruct Hpost as (((_ & _ & Hphases & Hengine) & _) & _).
  assert (Hcollect : exists w',
             collectData (S fuel) calibrationType w1 = Returned (Some false) w' /\
             cleaned w' /\
             now w' = (now w1 + 3000)%nat /\
             calls w' = calls w1 ++ [CInitializeCalibration calibrationType;
                                     CCalibrationPhaseList; CStartCalibration;
                                     CCalibrationPhaseText 0]).
  { unfold collectData. step. step. step. step.
    change (calibrationPhaseList
              (m_suitsConnector (logged (CInitializeCalibration calibrationType) w1)))
      with (calibrationPhaseList (m_suitsConnector w1)).
    rewrite Hphases. fold calibPhases.
    set (w3 := logged CStartCalibration
                 (asleep 3000
                    (logged CCalibrationPhaseList
                       (logged (CInitializeCalibration calibrationType) w1)))).
    assert (Hab3 : m_calibrationAborted (self w3) = true).
    { unfold w3. cbn [self logged]. apply asleep_aborted. right.
      exists t. cbn [now engine logged]. rewrite Hengine. auto. }
    rewrite followPhases_eq, size_minus_one_small by lia.
    destruct calibPhases as [|s [|e tl]]; simpl in Hlen2; try lia.
    replace (0 <? _) with true by (symmetry; apply Z.ltb_lt; simpl List.length; lia).
    change ((0 + 1) mod unsigned_modulus) with 1.
    change (unsigned_to_int 0) with 0.
    change (Z.to_nat 0) with O. change (Z.to_nat 1) with 1%nat.
    cbn [nth_error]. rewrite playFrames_eq. cbn [self logged]. rewrite Hab3.
    rewrite andb_false_r. cbn [self logged]. rewrite Hab3.
    eexists. split; [reflexivity|]. split; [reflexivity|].
    unfold w3. simpl. rewrite <- !app_assoc. auto. }
  destruct Hcollect as (w' & Hcollect & Hrest).
  exists w'. split; [|exact Hrest].
  unfold calibrateWithType, collectAndProcess.
  rewrite (bind_Returned _ _ _ _ _
             (eq_trans (proceed_None _ _ _ _ Hdiscard) (proceed_Some _ _ _ _ _ Hcollect))).
  reflexivity.
Qed.

(* ------------------------------------------------------------------ *)
(** ** Instances of the further properties *)

(** An abort was signalled before the calibration was asked for. *)
Lemma stale_abort_fails_the_next_calibration_witness :
  exists w',
    calibrateWithType 0 "Npose"
      (world (onCalibrationAborted (construct GOOD)) ankle_suit quiet)
    = Returned false w' /\
    cleaned w' /\
    m_calibrationAborted (self w') = false /\
    now w' = 0%nat /\
    calls w' = [CIsCalibrationPerformed "Npose"; CIsCalibrationPerformed "Npose"].
Proof.
  apply (stale_abort_fails_the_next_calibration 0 "Npose"
           (world (onCalibrationAborted (construct GOOD)) ankle_suit quiet)).
  reflexivity.
Defined.

(** The type of an accepted calibration is handed back, its quality is not. *)
Lemma getLastCalibrationInfo_after_calibration_witness :
  exists w',
    calibrateWithType 10 "Npose"
      (npose XCalQ_Good (at_times [(3425%nat, OnCalibrationProcessed)]))
    = Returned true w' /\
    getLastCalibrationInfo "Tpose" POOR w' = Returned ("Npose", POOR) w'.
Proof.
  set (w := npose XCalQ_Good (at_times [(3425%nat, OnCalibrationProcessed)])).
  assert (Hrun : calibrateWithType 10 "Npose" w
                 = Returned true (world_of (calibrateWithType 10 "Npose" w)))
    by (apply result_of_Some; vm_compute; reflexivity).
  eexists. split; [exact Hrun|].
  exact (getLastCalibrationInfo_after_calibration 10 "Npose" "Tpose" POOR w _ true Hrun).
Defined.

(** The completion signalled twice, around an abort. *)
Lemma notifications_act_as_a_set_witness :
  receive [OnCalibrationComplete; OnCalibrationAborted; OnCalibrationComplete]
          (construct GOOD)
  = receive [OnCalibrationAborted; OnCalibrationComplete] (construct GOOD).
Proof.
  apply notifications_act_as_a_set. intros e. simpl. tauto.
Defined.

(** The three labels of [odd_suit], and an unplugged suit. *)
Lemma getBodyDimensions_contents_witness :
  (exists filled w',
     getBodyDimensions [] (world (construct GOOD) odd_suit quiet)
     = Returned (true, filled) w' /\
     map_find "ankleHeight" filled = Some (1 # 10) /\
     map_find "hipWidth" filled = None /\
     map_find "kneeHeight" filled = Some ((-1) # 2)) /\
  getBodyDimensions [("ankleHeight", 1 # 10)] (world (construct GOOD) unplugged quiet)
  = Returned (false, [("ankleHeight", 1 # 10)])
             (logged CStatus (world (construct GOOD) unplugged quiet)).
Proof.
  split.
  - destruct (proj1 (getBodyDimensions_contents [] (world (construct GOOD) odd_suit quiet))
                eq_refl) as (filled & w' & Hrun & _ & _ & Hfind).
    exists filled, w'. split; [exact Hrun|].
    rewrite !Hfind. repeat split.
  - apply (proj2 (getBodyDimensions_contents [("ankleHeight", 1 # 10)]
                    (world (construct GOOD) unplugged quiet))).
    reflexivity.
Defined.

(** The accepted calibration that follows the discard of a previous one. *)
Lemma successful_calibration_trace_witness :
  exists (w' : World) (k m n : nat),
    calibrateWithType 10 "Npose"
      (npose_again XCalQ_Good
         (at_times [(15%nat, CalibrationCleared "Npose");
                    (3445%nat, OnCalibrationProcessed);
                    (3472%nat, OnCalibrationComplete)]))
    = Returned true w' /\
    calls w' = CIsCalibrationPerformed "Npose" :: CClearCalibration "Npose"
               :: repeat (CIsCalibrationPerformed "Npose") (S k)
               ++ [CInitializeCalibration "Npose"; CCalibrationPhaseList;
                   CStartCalibration]
               ++ collection_calls 0 [0; 10; 20]
               ++ [CStopCalibration; CCalibrationResult "Npose"; CFinalizeCalibration] /\
    now w' = (0 + 10 * k + 3000 + 16 * frames_of [0; 10; 20]%Z + 100 + 10 * m + 10 * n)%nat.
Proof.
  set (w := npose_again XCalQ_Good
              (at_times [(15%nat, CalibrationCleared "Npose");
                         (3445%nat, OnCalibrationProcessed);
                         (3472%nat, OnCalibrationComplete)])).
  assert (Hrun : calibrateWithType 10 "Npose" w
                 = Returned true (world_of (calibrateWithType 10 "Npose" w)))
    by (apply result_of_Some; vm_compute; reflexivity).
  destruct (successful_calibration_trace 10 "Npose" w _ eq_refl Hrun)
    as (k & m & n & Hcalls & Hnow).
  eexists. exists k, m, n. split; [exact Hrun|]. split; [exact Hcalls|exact Hnow].
Defined.


(** The completion at 5 ms and the abort at 7 ms, both seen by the second
    test of the wait. *)
Lemma abort_wins_over_completion_witness :
  let w := world (set_operationCompleted false
                    (set_calibrationInProgress true (construct ACCEPTABLE)))
                 ankle_suit
                 (at_times [(5%nat, OnCalibrationComplete); (7%nat, OnCalibrationAborted)]) in
  exists w',
    applyCalibration 3 "Npose" XCalQ_Good w = Returned false w' /\
    cleaned w' /\
    calls w' = [CFinalizeCalibration].
Proof.
  intros w.
  apply (abort_wins_over_completion 3 1 7 "Npose" XCalQ_Good w).
  - lia.
  - reflexivity.
  - intros t' Ht'. simpl in Ht'. lia.
  - simpl. lia.
  - apply In_at_times. right. left. reflexivity.
Defined.

(** Two phases of ten frames on a silent engine. *)
Lemma collection_without_abort_witness :
  let w := world (set_calibrationInProgress true (construct ACCEPTABLE)) ankle_suit quiet in
  exists w',
    collectData 20 "Npose" w = Returned None w' /\
    m_calibrationAborted (self w') = false /\
    calls w' = [CInitializeCalibration "Npose"; CCalibrationPhaseList; CStartCalibration]
               ++ collection_calls 0 [0; 10; 20] /\
    now w' = 3320%nat.
Proof.
  intros w.
  apply (collection_without_abort 20 "Npose" w).
  - discriminate.
  - reflexivity.
  - simpl. lia.
  - vm_compute. lia.
  - reflexivity.
  - intros t _ H. exact H.
Defined.

(** An abort signalled in the middle of the warm-up. *)
Lemma abort_during_warm_up_witness :
  exists w',
    calibrateWithType 6 "Npose"
      (npose XCalQ_Good (at_times [(1500%nat, OnCalibrationAborted)]))
    = Returned false w' /\
    cleaned w' /\
    In CStartCalibration (calls w') /\
    ~ In CStopCalibration (calls w').
Proof.
  set (w := npose XCalQ_Good (at_times [(1500%nat, OnCalibrationAborted)])).
  assert (Hrun : discardPrevious 6 "Npose" w
                 = Returned None (world_of (discardPrevious 6 "Npose" w)))
    by (apply result_of_Some; vm_compute; reflexivity).
  destruct (abort_during_warm_up 5 1500 "Npose" w
              (world_of (discardPrevious 6 "Npose" w))) with (3 := Hrun)
    as (w' & Hret & Hclean & _ & Hcalls).
  - simpl. lia.
  - reflexivity.
  - split; [apply Nat.leb_le|apply Nat.ltb_lt]; vm_compute; reflexivity.
  - apply In_at_times. left. reflexivity.
  - exists w'. split; [exact Hret|]. split; [exact Hclean|].
    rewrite Hcalls.
    replace (calls (world_of (discardPrevious 6 "Npose" w)))
      with [CIsCalibrationPerformed "Npose"; CIsCalibrationPerformed "Npose"]
      by (vm_compute; reflexivity).
    simpl. split; [tauto|].
    intros [H|[H|[H|[H|[H|[H|[]]]]]]]; discriminate H.
Defined.
